(** * Battery cell calculator: a shallow embedding of [streamlit_battery_system.py]

    The development follows the Python source.  Python [float]s are IEEE 754
    binary64 numbers; they are modelled with the executable specification
    [spec_float] (precision 53, exponent bound 1024), so every arithmetic step
    of the script can be evaluated on concrete readings.  Python's dynamic
    numbers ([int] or [float]) are kept apart where the script produces both
    (the builtins [max] and [min] return one of their arguments unchanged). *)

From Stdlib Require Import ZArith Bool SpecFloat.
From stdpp Require Import base tactics option list strings gmap pretty.

Local Open Scope Z_scope.

(** ** Binary64 arithmetic *)

Module F64.

Definition prec : Z := 53.
Definition emax : Z := 1024.

Abbreviation float := spec_float.

Definition add : float -> float -> float := SFadd prec emax.
Definition sub : float -> float -> float := SFsub prec emax.
Definition mul : float -> float -> float := SFmul prec emax.
Definition div : float -> float -> float := SFdiv prec emax.

Definition ltb : float -> float -> bool := SFltb.
Definition leb : float -> float -> bool := SFleb.
Definition geb (x y : float) : bool :=
  match SFcompare x y with Some (Gt | Eq) => true | _ => false end.
Definition eqb : float -> float -> bool := SFeqb.

Definition is_nan (x : float) : bool :=
  match x with S754_nan => true | _ => false end.

Definition is_finite (x : float) : bool :=
  match x with S754_zero _ | S754_finite _ _ _ => true | _ => false end.

Definition is_zero (x : float) : bool :=
  match x with S754_zero _ => true | _ => false end.

(** Sign bit of a number; [false] for NaN. *)
Definition signbit (x : float) : bool :=
  match x with
  | S754_zero s | S754_infinity s | S754_finite s _ _ => s
  | S754_nan => false
  end.

(** The binary64 number nearest to [(-1)^s * n / d] (ties to even), for
    integers [0 <= n] and [0 < d].  This is what the Python reader does with
    a decimal literal and what [strtod] does with a decimal string. *)
Definition of_ratio (s : bool) (n d : Z) : float :=
  let '(mz, ez, lz) := SFdiv_core_binary prec emax n 0 d 0 in
  binary_round_aux prec emax s mz ez lz.

(** A decimal literal [n * 10^-k], e.g. [dec 32 1] for [3.2]. *)
Definition dec (n : Z) (k : Z) : float :=
  of_ratio (n <? 0) (Z.abs n) (10 ^ k).

(** Conversion of a Python [int] that is used as a float operand. *)
Definition of_int (z : Z) : float := binary_normalize prec emax z 0 false.

End F64.

Abbreviation float := spec_float.

(** ** Python values and builtins used by the script *)

(** A Python number: the script mixes [int] constants ([0], [100]) with
    [float] readings, and [max]/[min] hand back one of their arguments. *)
Inductive pyval :=
  | PyInt (z : Z)
  | PyFloat (f : float).

(** Exceptions the modelled code can raise. *)
Inductive exn :=
  | KeyError (key : string)
  | ZeroDivisionError.

Inductive res (A : Type) :=
  | Ok (a : A)
  | Raise (e : exn).
Arguments Ok {A} a.
Arguments Raise {A} e.

Module Py.

(** The integer nearest to [a / b], ties to even, for [0 <= a] and [0 < b]. *)
Definition round_half_even (a b : Z) : Z :=
  let (q, r) := Z.div_eucl a b in
  match 2 * r ?= b with
  | Lt => q
  | Gt => q + 1
  | Eq => if Z.even q then q else q + 1
  end.

(** [m * 2^e * 10^ndigits] rounded to an integer: the digits of the decimal
    string that [round] produces. *)
Definition decimal_digits (m : positive) (e : Z) (ndigits : Z) : Z :=
  if 0 <=? e then Zpos m * 2 ^ e * 10 ^ ndigits
  else round_half_even (Zpos m * 10 ^ ndigits) (2 ^ (- e)).

(** [round(x, ndigits)] on a float, [0 <= ndigits]: the value is rounded
    correctly (ties to even, on the exact binary value) to [ndigits]
    decimals and the decimal result is read back as the nearest float.
    Infinities and NaN round to themselves.  CPython raises
    [OverflowError] only if the decimal result leaves the float range;
    floats of magnitude 2^53 and above are whole numbers and round to
    themselves, so that branch is not modelled. *)
Definition round (x : float) (ndigits : Z) : float :=
  match x with
  | S754_finite s m e =>
      F64.of_ratio s (decimal_digits m e ndigits) (10 ^ ndigits)
  | _ => x
  end.

(** [round] on any number: an [int] with [0 <= ndigits] is returned as is. *)
Definition round_val (x : pyval) (ndigits : Z) : pyval :=
  match x with
  | PyInt z => PyInt z
  | PyFloat f => PyFloat (round f ndigits)
  end.

(** Comparison of a float with an int is exact in Python. *)
Definition compare_float_int (f : float) (z : Z) : option comparison :=
  match f with
  | S754_nan => None
  | S754_infinity s => Some (if s then Lt else Gt)
  | S754_zero _ => Some (0 ?= z)
  | S754_finite s m e =>
      let v := if s then Zneg m else Zpos m in
      Some (if 0 <=? e then v * 2 ^ e ?= z else v ?= z * 2 ^ (- e))
  end.

Definition compare (a b : pyval) : option comparison :=
  match a, b with
  | PyInt x, PyInt y => Some (x ?= y)
  | PyFloat x, PyFloat y => SFcompare x y
  | PyFloat x, PyInt y => compare_float_int x y
  | PyInt x, PyFloat y => option_map CompOpp (compare_float_int y x)
  end.

Definition lt (a b : pyval) : bool :=
  match compare a b with Some Lt => true | _ => false end.
Definition gt (a b : pyval) : bool :=
  match compare a b with Some Gt => true | _ => false end.
Definition le (a b : pyval) : bool :=
  match compare a b with Some (Lt | Eq) => true | _ => false end.
Definition ge (a b : pyval) : bool :=
  match compare a b with Some (Gt | Eq) => true | _ => false end.
Definition eq (a b : pyval) : bool :=
  match compare a b with Some Eq => true | _ => false end.

(** Two-argument [max] and [min]: the first argument is kept unless the
    second one is strictly greater (resp. smaller). *)
Definition max (a b : pyval) : pyval := if gt b a then b else a.
Definition min (a b : pyval) : pyval := if lt b a then b else a.

(** Float true division; a zero divisor raises. *)
Definition truediv (a b : float) : res float :=
  if F64.is_zero b then Raise ZeroDivisionError else Ok (F64.div a b).

End Py.

(** ** The interpreter state the script runs in *)

(** One entry of [cell_types]: a dict with four fixed keys. *)
Record Profile := {
  nominal_voltage : float;
  minimum_voltage : float;
  maximum_voltage : float;
  name : string
}.

(** The object built by [BatteryCellMonitor.__init__]. *)
Record BatteryCellMonitor := {
  cell_types : gmap string Profile
}.

(** One entry of [st.session_state.cells_config].  The sidebar rebuilds every
    entry from [st.number_input] widgets with float bounds before the data is
    processed, so voltage and current are floats. *)
Record Reading := {
  type : string;
  voltage : float;
  current : float
}.

(** The generator behind the module [random]: the sequence of values that
    [random.random()] will return, and how many were consumed. *)
Record Random := {
  source : nat -> float;
  cursor : nat
}.

(** Everything the modelled code can reach: the monitor object, the session
    list of readings, the monitoring flag and the random generator. *)
Record World := {
  monitor : BatteryCellMonitor;
  cells_config : list Reading;
  monitoring_active : bool;
  rng : Random
}.

(** Computations that read or change the world and may raise. *)
Definition M (A : Type) : Type := World -> res A * World.

#[global] Instance M_ret : MRet M := fun A a w => (Ok a, w).

#[global] Instance M_bind : MBind M := fun A B k m w =>
  match m w with
  | (Ok a, w') => k a w'
  | (Raise e, w') => (Raise e, w')
  end.

Definition raise {A} (e : exn) : M A := fun w => (Raise e, w).

Definition lift {A} (r : res A) : M A := fun w => (r, w).

(** [self.cell_types], read through the reference held by the session. *)
Definition self_cell_types : M (gmap string Profile) :=
  fun w => (Ok (cell_types (monitor w)), w).

(** Subscription [d[key]] of a dict. *)
Definition getitem (d : gmap string Profile) (key : string) : M Profile :=
  match d !! key with
  | Some specs => mret specs
  | None => raise (KeyError key)
  end.

(** [random.random()]: the next value of the generator, which advances. *)
Definition random_random : M float :=
  fun w =>
    let g := rng w in
    (Ok (source g (cursor g)),
     {| monitor := monitor w;
        cells_config := cells_config w;
        monitoring_active := monitoring_active w;
        rng := {| source := source g; cursor := S (cursor g) |} |}).

(** [random.uniform(a, b)] is [a + (b - a) * random()].  Only the monitoring
    tick calls it, so it is given on the generator itself. *)
Definition random_uniform (a b : float) (g : Random) : float * Random :=
  (F64.add a (F64.mul (F64.sub b a) (source g (cursor g))),
   {| source := source g; cursor := S (cursor g) |}).

(** ** class BatteryCellMonitor *)

Definition BatteryCellMonitor_init : BatteryCellMonitor :=
  {| cell_types :=
       <[ "LFP" := {| nominal_voltage := F64.dec 32 1;
                      minimum_voltage := F64.dec 28 1;
                      maximum_voltage := F64.dec 36 1;
                      name := "Lithium Iron Phosphate" |} ]>
      (<[ "NMC" := {| nominal_voltage := F64.dec 36 1;
                      minimum_voltage := F64.dec 32 1;
                      maximum_voltage := F64.dec 40 1;
                      name := "Nickel Manganese Cobalt" |} ]>
      (<[ "LCO" := {| nominal_voltage := F64.dec 37 1;
                      minimum_voltage := F64.dec 30 1;
                      maximum_voltage := F64.dec 42 1;
                      name := "Lithium Cobalt Oxide" |} ]>
      (<[ "LTO" := {| nominal_voltage := F64.dec 24 1;
                      minimum_voltage := F64.dec 15 1;
                      maximum_voltage := F64.dec 28 1;
                      name := "Lithium Titanate Oxide" |} ]> ∅))) |}.

Definition generate_random_voltage (cell_type : string) : M float :=
  d ← self_cell_types;
  specs ← getitem d cell_type;
  let range_voltage := F64.sub (maximum_voltage specs) (minimum_voltage specs) in
  u ← random_random;
  mret (Py.round (F64.add (minimum_voltage specs) (F64.mul u range_voltage)) 2).

Definition generate_random_current : M float :=
  u ← random_random;
  mret (Py.round (F64.add (F64.dec 5 1) (F64.mul u (F64.of_int 2))) 2).

Definition generate_random_temperature : M float :=
  u ← random_random;
  mret (Py.round (F64.add (F64.of_int 20) (F64.mul u (F64.of_int 25))) 1).

(** The unclamped, unrounded percentage of [calculate_soc]. *)
Definition soc_raw (specs : Profile) (voltage : float) : res float :=
  let range_voltage := F64.sub (maximum_voltage specs) (minimum_voltage specs) in
  match Py.truediv (F64.sub voltage (minimum_voltage specs)) range_voltage with
  | Ok q => Ok (F64.mul q (F64.of_int 100))
  | Raise e => Raise e
  end.

Definition calculate_soc (voltage : float) (cell_type : string) : M pyval :=
  d ← self_cell_types;
  specs ← getitem d cell_type;
  soc ← lift (soc_raw specs voltage);
  mret (Py.max (PyInt 0) (Py.min (PyInt 100) (PyFloat (Py.round soc 1)))).

Definition get_cell_status (voltage : float) (cell_type : string) : M string :=
  d ← self_cell_types;
  specs ← getitem d cell_type;
  if F64.leb voltage (F64.mul (minimum_voltage specs) (F64.dec 105 2)) then
    mret "LOW"
  else if F64.geb voltage (F64.mul (maximum_voltage specs) (F64.dec 95 2)) then
    mret "HIGH"
  else
    mret "NORMAL".

(** One dict appended to [cells_data].  In Python ['Specs'] refers to the
    table's own entry; nothing in the modelled code writes through it. *)
Record CellData := {
  Cell_ID : string;
  Type_ : string;
  Voltage_V : float;
  Current_A : float;
  Power_W : float;
  Temperature_C : float;
  SOC_pct : pyval;
  Status : string;
  Specs : Profile
}.

(** The body of the [for] loop of [process_cells_data], for the readings
    that remain; [i] is the counter of [enumerate(cells_config, 1)]. *)
Fixpoint process_cells_loop (i : nat) (remaining : list Reading)
    (cells_data : list CellData) : M (list CellData) :=
  match remaining with
  | [] => mret cells_data
  | config :: rest =>
      let cell_type := type config in
      let voltage := voltage config in
      let current := current config in
      let power := Py.round (F64.mul voltage current) 2 in
      temperature ← generate_random_temperature;
      soc ← calculate_soc voltage cell_type;
      status ← get_cell_status voltage cell_type;
      d ← self_cell_types;
      specs ← getitem d cell_type;
      process_cells_loop (S i) rest
        (cells_data ++
           [{| Cell_ID := "Cell_" +:+ pretty i;
               Type_ := cell_type;
               Voltage_V := voltage;
               Current_A := current;
               Power_W := power;
               Temperature_C := temperature;
               SOC_pct := soc;
               Status := status;
               Specs := specs |}])
  end.

Definition process_cells_data (cells_config : list Reading) : M (list CellData) :=
  process_cells_loop 1 cells_config [].

(** ** The monitoring tick (module level, run while monitoring is active) *)

(** The values written back to [cells_config[i]['voltage']] and
    [cells_config[i]['current']] for given variations.  [max(0, x)] returns
    the int [0] when [x] is not positive, and [round] keeps an int an int. *)
Definition perturb (config : Reading) (voltage_variation current_variation : float)
    : pyval * pyval :=
  let new_voltage :=
    Py.max (PyInt 0) (PyFloat (F64.add (voltage config) voltage_variation)) in
  let new_current :=
    Py.max (PyInt 0) (PyFloat (F64.add (current config) current_variation)) in
  (Py.round_val new_voltage 2, Py.round_val new_current 2).

(** A world as it is once the script has built the monitor. *)
Definition runtime (config : list Reading) (active : bool) (g : Random) : World :=
  {| monitor := BatteryCellMonitor_init;
     cells_config := config;
     monitoring_active := active;
     rng := g |}.

(** The chemistry identifiers offered by the sidebar. *)
Definition chemistries : list string := ["LFP"; "NMC"; "LCO"; "LTO"].

(** ** Auxiliary notions used in the statements *)

(** [x] is a number (not NaN) with sign bit [s]. *)
Definition signed (s : bool) (x : float) : Prop :=
  F64.is_nan x = false /\ F64.signbit x = s.

(** What the proofs need from a profile, as a check that can be run:
    finite bounds, a finite non-zero range, ordered attributes and
    thresholds that do not overlap. *)
Definition profile_ok (specs : Profile) : bool :=
  F64.is_finite (minimum_voltage specs)
  && F64.is_finite (maximum_voltage specs)
  && match F64.sub (maximum_voltage specs) (minimum_voltage specs) with
     | S754_finite _ _ _ => true
     | _ => false
     end
  && F64.ltb (minimum_voltage specs) (nominal_voltage specs)
  && F64.ltb (nominal_voltage specs) (maximum_voltage specs)
  && F64.ltb (F64.mul (minimum_voltage specs) (F64.dec 105 2))
             (F64.mul (maximum_voltage specs) (F64.dec 95 2)).

(** The random generator after [n] more draws. *)
Definition draws (n : nat) (w : World) : World :=
  {| monitor := monitor w;
     cells_config := cells_config w;
     monitoring_active := monitoring_active w;
     rng := {| source := source (rng w); cursor := n + cursor (rng w) |} |}.

(** The clamp of [calculate_soc], applied to an already rounded value. *)
Definition soc_clamp (rounded : float) : pyval :=
  Py.max (PyInt 0) (Py.min (PyInt 100) (PyFloat rounded)).

(** The three-way test of [get_cell_status]. *)
Definition status_of (specs : Profile) (v : float) : string :=
  if F64.leb v (F64.mul (minimum_voltage specs) (F64.dec 105 2)) then "LOW"
  else if F64.geb v (F64.mul (maximum_voltage specs) (F64.dec 95 2)) then "HIGH"
  else "NORMAL".

(** The temperature computed from one value of the generator. *)
Definition temperature_of (u : float) : float :=
  Py.round (F64.add (F64.of_int 20) (F64.mul u (F64.of_int 25))) 1.

(** The dict appended for reading [config] at counter [i], given the profile
    found for its chemistry, its unrounded percentage and the generator's
    value [u]. *)
Definition cell_data (i : nat) (config : Reading) (specs : Profile)
    (soc : float) (u : float) : CellData :=
  {| Cell_ID := "Cell_" +:+ pretty i;
     Type_ := type config;
     Voltage_V := voltage config;
     Current_A := current config;
     Power_W := Py.round (F64.mul (voltage config) (current config)) 2;
     Temperature_C := temperature_of u;
     SOC_pct := soc_clamp (Py.round soc 1);
     Status := status_of specs (voltage config);
     Specs := specs |}.

(** A reading whose chemistry is in the startup table. *)
Definition known (config : Reading) : Prop := type config ∈ chemistries.

(** Clamping to [[0, 100]] as the specification words it: values at or
    below 0 give 0, values at or above 100 give 100, others are kept. *)
Definition clamp_0_100 (x : pyval) : pyval :=
  if Py.le x (PyInt 0) then PyInt 0
  else if Py.ge x (PyInt 100) then PyInt 100
  else x.

(** A generator whose successive values are 0, 1/8, ..., 7/8, 0, ... *)
Definition demo_rng : Random :=
  {| source := fun n => F64.of_ratio false (Z.of_nat n mod 8) 8; cursor := 0 |}.

(** The session as the script first builds it: eight LFP cells at 3.2 V, 1 A. *)
Definition default_config : list Reading :=
  replicate 8 {| type := "LFP"; voltage := F64.dec 32 1; current := F64.dec 10 1 |}.

Definition world0 : World := runtime default_config false demo_rng.

(** The reading of the specification's error example. *)
Definition xyz_reading : Reading :=
  {| type := "XYZ"; voltage := F64.dec 30 1; current := F64.dec 10 1 |}.

(** The reading of the specification's end-to-end LFP example. *)
Definition lfp_reading : Reading :=
  {| type := "LFP"; voltage := F64.dec 28 1; current := F64.dec 10 1 |}.

(** A record with its temperature blanked out, to compare two results in
    everything but the temperature. *)
Definition without_temperature (rec : CellData) : CellData :=
  {| Cell_ID := Cell_ID rec;
     Type_ := Type_ rec;
     Voltage_V := Voltage_V rec;
     Current_A := Current_A rec;
     Power_W := Power_W rec;
     Temperature_C := S754_zero false;
     SOC_pct := SOC_pct rec;
     Status := Status rec;
     Specs := Specs rec |}.

Definition res_map {A B} (f : A -> B) (r : res A) : res B :=
  match r with
  | Ok a => Ok (f a)
  | Raise e => Raise e
  end.

(** Flooring at 0 as the specification words it: values at or below 0 give
    0, others are kept. *)
Definition floor_at_0 (x : pyval) : pyval :=
  if Py.le x (PyInt 0) then PyInt 0 else x.

(** ** The script below the class *)

(** Exceptions of the script itself: one escaping from a method of the
    monitor, a list index out of range, or an int too large to be used as a
    float. *)
Inductive script_exn :=
  | MethodError (e : exn)
  | IndexError
  | OverflowError.

(** [cells_config[i]['voltage'] = v] and [cells_config[i]['current'] = c],
    for an index that is in range. *)
Definition set_voltage (i : nat) (v : float) (w : World) : World :=
  {| monitor := monitor w;
     cells_config :=
       alter (fun config => {| type := type config; voltage := v;
                               current := current config |}) i (cells_config w);
     monitoring_active := monitoring_active w;
     rng := rng w |}.

Definition set_current (i : nat) (c : float) (w : World) : World :=
  {| monitor := monitor w;
     cells_config :=
       alter (fun config => {| type := type config; voltage := voltage config;
                               current := c |}) i (cells_config w);
     monitoring_active := monitoring_active w;
     rng := rng w |}.

(** The body of the loop behind the Randomize button, for index [i].  The
    result is [None] when the body ran through. *)
Definition randomize_cell (i : nat) (w : World) : option script_exn * World :=
  match cells_config w !! i with
  | None => (Some IndexError, w)
  | Some config =>
      let cell_type := type config in
      match generate_random_voltage cell_type w with
      | (Raise e, w1) => (Some (MethodError e), w1)
      | (Ok v, w1) =>
          let w2 := set_voltage i v w1 in
          match generate_random_current w2 with
          | (Raise e, w3) => (Some (MethodError e), w3)
          | (Ok c, w3) => (None, set_current i c w3)
          end
      end
  end.

(** [for i in range(start, start + n): body(i)], stopping at the first
    exception. *)
Fixpoint for_range (n start : nat) (body : nat -> World -> option script_exn * World)
    (w : World) : option script_exn * World :=
  match n with
  | O => (None, w)
  | S n' =>
      match body start w with
      | (None, w') => for_range n' (S start) body w'
      | (Some e, w') => (Some e, w')
      end
  end.

(** The loop run when the Randomize button is pressed. *)
Definition randomize : World -> option script_exn * World :=
  for_range 8 0 randomize_cell.

(** [style_status], applied to the Status column of the table. *)
Definition style_status (val : string) : string :=
  if String.eqb val "LOW" then "background-color: #f8d7da; color: #721c24"
  else if String.eqb val "HIGH" then "background-color: #d1ecf1; color: #0c5460"
  else "background-color: #d4edda; color: #155724".

(** The alerts loop over the rows of the data frame, which carry the values
    of the records (a column of numbers may hold the ints 0 and 100 of a
    state of charge as floats, which compare alike).  The text that an
    f-string gives for a number of the frame is left open: [str_float] and
    [str_val] stand for it. *)
Fixpoint alerts_loop (str_float : float -> string) (str_val : pyval -> string)
    (rows : list CellData) (alerts : list string) : list string :=
  match rows with
  | [] => alerts
  | cell :: rest =>
      let alerts :=
        if String.eqb (Status cell) "LOW" then
          alerts ++ ["⚠️ " +:+ Cell_ID cell +:+ ": Low voltage ("
                       +:+ str_float (Voltage_V cell) +:+ "V)"]
        else if String.eqb (Status cell) "HIGH" then
          alerts ++ ["⚠️ " +:+ Cell_ID cell +:+ ": High voltage ("
                       +:+ str_float (Voltage_V cell) +:+ "V)"]
        else alerts in
      let alerts :=
        if Py.gt (PyFloat (Temperature_C cell)) (PyInt 40) then
          alerts ++ ["🌡️ " +:+ Cell_ID cell +:+ ": High temperature ("
                       +:+ str_float (Temperature_C cell) +:+ "°C)"]
        else alerts in
      let alerts :=
        if Py.lt (SOC_pct cell) (PyInt 20) then
          alerts ++ ["🔋 " +:+ Cell_ID cell +:+ ": Low state of charge ("
                       +:+ str_val (SOC_pct cell) +:+ "%)"]
        else alerts in
      alerts_loop str_float str_val rest alerts
  end.

Definition system_alerts (str_float : float -> string) (str_val : pyval -> string)
    (rows : list CellData) : list string :=
  alerts_loop str_float str_val rows [].

(** The branch [if alerts: ... else: st.success(...)]: [true] when the
    all-clear message is shown. *)
Definition all_clear (str_float : float -> string) (str_val : pyval -> string)
    (rows : list CellData) : bool :=
  match system_alerts str_float str_val rows with
  | [] => true
  | _ :: _ => false
  end.

(** One element of the column [df['Efficiency']]; the frame's arithmetic is
    elementwise binary64 and does not raise. *)
Definition efficiency (cell : CellData) : float :=
  F64.mul (F64.div (Power_W cell) (F64.mul (Voltage_V cell) (Current_A cell)))
    (F64.of_int 100).

(** The alerts that one row contributes, in the order the loop appends them. *)
Definition cell_alerts (str_float : float -> string) (str_val : pyval -> string)
    (cell : CellData) : list string :=
  alerts_loop str_float str_val [cell] [].

(** A row that raises no alert. *)
Definition quiet (cell : CellData) : Prop :=
  Status cell <> "LOW" /\ Status cell <> "HIGH"
  /\ Py.gt (PyFloat (Temperature_C cell)) (PyInt 40) = false
  /\ Py.lt (SOC_pct cell) (PyInt 20) = false.

(** A finite float with a clear sign bit. *)
Definition nonneg_finite (x : float) : bool :=
  F64.is_finite x && negb (F64.signbit x).

(** The random generator with its cursor moved [n] places further. *)
Definition advance (n : nat) (g : Random) : Random :=
  {| source := source g; cursor := n + cursor g |}.

(** What a run of loop iterations over the indices [start .. start + n - 1]
    may have changed: the generator moved [draws_used] places, the entries
    keep their chemistry, and entries outside the range are as before. *)
Definition randomized_within (start n draws_used : nat) (w w' : World) : Prop :=
  monitor w' = monitor w
  /\ monitoring_active w' = monitoring_active w
  /\ rng w' = advance draws_used (rng w)
  /\ length (cells_config w') = length (cells_config w)
  /\ (forall j, type <$> cells_config w' !! j = type <$> cells_config w !! j)
  /\ (forall j, (j < start \/ start + n <= j)%nat ->
                cells_config w' !! j = cells_config w !! j).

(** ** The monitoring tick on the session list *)

(** One dict of the session list while the tick runs.  The tick stores
    [round(max(0, x), 2)], which is the int [0] when [x] is not positive, so
    the numbers of an entry are Python numbers. *)
Record Stored := {
  s_type : string;
  s_voltage : pyval;
  s_current : pyval
}.

(** The state the tick runs in: as [World], with such entries. *)
Record Session := {
  s_monitor : BatteryCellMonitor;
  s_cells : list Stored;
  s_active : bool;
  s_rng : Random
}.

(** The session as the sidebar leaves it, all numbers being floats. *)
Definition session_of (w : World) : Session :=
  {| s_monitor := monitor w;
     s_cells :=
       map (fun config => {| s_type := type config;
                             s_voltage := PyFloat (voltage config);
                             s_current := PyFloat (current config) |})
         (cells_config w);
     s_active := monitoring_active w;
     s_rng := rng w |}.

(** A number used as the left operand of [+] with a float: an int is
    converted to the nearest float, and one too large for that raises
    [OverflowError] ([None] here). *)
Definition float_of_num (x : pyval) : option float :=
  match x with
  | PyFloat f => Some f
  | PyInt z => if F64.is_finite (F64.of_int z) then Some (F64.of_int z) else None
  end.

(** One iteration of the loop of the tick, for index [i]: the two
    variations are drawn, then [cells_config[i]] is read and its voltage and
    current are overwritten with the values of [perturb].  The result is
    [None] when the iteration ran through. *)
Definition monitoring_step (i : nat) (s : Session) : option script_exn * Session :=
  let '(voltage_variation, g1) :=
    random_uniform (F64.dec (-5) 2) (F64.dec 5 2) (s_rng s) in
  let '(current_variation, g2) :=
    random_uniform (F64.dec (-1) 1) (F64.dec 1 1) g1 in
  let drawn :=
    {| s_monitor := s_monitor s; s_cells := s_cells s;
       s_active := s_active s; s_rng := g2 |} in
  match s_cells s !! i with
  | None => (Some IndexError, drawn)
  | Some entry =>
      match float_of_num (s_voltage entry) with
      | None => (Some OverflowError, drawn)
      | Some voltage =>
          match float_of_num (s_current entry) with
          | None => (Some OverflowError, drawn)
          | Some current =>
              let '(stored_voltage, stored_current) :=
                perturb {| type := s_type entry; voltage := voltage;
                           current := current |}
                  voltage_variation current_variation in
              (None,
               {| s_monitor := s_monitor s;
                  s_cells :=
                    alter (fun e => {| s_type := s_type e;
                                       s_voltage := stored_voltage;
                                       s_current := stored_current |})
                      i (s_cells s);
                  s_active := s_active s;
                  s_rng := g2 |})
          end
      end
  end.

(** ** Counting the draws of a batch evaluation *)

(** A reading for which [calculate_soc] returns. *)
Definition evaluable (w : World) (config : Reading) : bool :=
  match fst (calculate_soc (voltage config) (type config) w) with
  | Ok _ => true
  | Raise _ => false
  end.

(** The readings that batch evaluation gets to: all of them, or those up
    to and including the first one for which [calculate_soc] raises. *)
Fixpoint readings_reached (w : World) (cfg : list Reading) : nat :=
  match cfg with
  | [] => 0
  | config :: rest =>
      if evaluable w config then S (readings_reached w rest) else 1
  end.

(** The temperatures computed from the next [n] values of a generator. *)
Definition drawn_temperatures (g : Random) (n : nat) : list float :=
  map (fun k => temperature_of (source g (k + cursor g))) (seq 0 n).

(** * Properties *)

(** ** Sign and NaN-freedom of correctly rounded results

    None of the results below depend on how accurate rounding is: they only
    follow the sign bit and the absence of NaN through the rounding steps. *)

Section RoundingShape.

Lemma shr_1_nonneg mrs : 0 <= shr_m mrs -> 0 <= shr_m (shr_1 mrs).
Proof.
  destruct mrs as [m r s]; simpl.
  destruct m as [|[p|p|]|[p|p|]]; simpl; lia.
Qed.

Lemma iter_shr_1_nonneg p :
  forall mrs, 0 <= shr_m mrs -> 0 <= shr_m (SpecFloat.iter_pos shr_1 p mrs).
Proof.
  induction p as [p IH|p IH|]; intros mrs Hm; simpl.
  - apply IH, IH, shr_1_nonneg, Hm.
  - apply IH, IH, Hm.
  - apply shr_1_nonneg, Hm.
Qed.

Lemma shr_fexp_nonneg m e l :
  0 <= m -> 0 <= shr_m (fst (shr_fexp F64.prec F64.emax m e l)).
Proof.
  intros Hm. unfold shr_fexp, shr.
  assert (H0 : 0 <= shr_m (shr_record_of_loc m l))
    by (destruct l as [|[]]; exact Hm).
  destruct (_ - e) as [|p|p]; simpl; auto using iter_shr_1_nonneg.
Qed.

Lemma round_nearest_even_nonneg m l : 0 <= m -> 0 <= round_nearest_even m l.
Proof.
  intros Hm. destruct l as [|[]]; simpl; try lia.
  destruct (Z.even m); lia.
Qed.

Lemma binary_round_aux_signed s m e l :
  0 <= m -> signed s (binary_round_aux F64.prec F64.emax s m e l).
Proof.
  intros Hm. unfold binary_round_aux.
  pose proof (shr_fexp_nonneg m e l Hm) as H1.
  destruct (shr_fexp F64.prec F64.emax m e l) as [mrs1 e1]; simpl in H1.
  pose proof (shr_fexp_nonneg _ e1 loc_Exact
                (round_nearest_even_nonneg _ (loc_of_shr_record mrs1) H1)) as H2.
  destruct (shr_fexp F64.prec F64.emax _ e1 loc_Exact) as [mrs2 e2]; simpl in H2.
  destruct (shr_m mrs2) as [|p|p]; [split; reflexivity| |lia].
  destruct (e2 <=? _); split; reflexivity.
Qed.

Lemma binary_round_signed s m e : signed s (binary_round F64.prec F64.emax s m e).
Proof.
  unfold binary_round. destruct (shl_align _ _ _) as [mz ez].
  apply binary_round_aux_signed. lia.
Qed.

Lemma binary_normalize_not_nan m e :
  F64.is_nan (binary_normalize F64.prec F64.emax m e false) = false.
Proof.
  destruct m as [|p|p]; simpl; [reflexivity| |]; apply binary_round_signed.
Qed.

Lemma of_ratio_signed s n d : 0 <= n -> 0 < d -> signed s (F64.of_ratio s n d).
Proof.
  intros Hn Hd. unfold F64.of_ratio, SFdiv_core_binary.
  set (sh := 0 - 0 - _).
  set (m' := match sh with Z0 => n | Zpos _ => Z.shiftl n sh | Zneg _ => 0 end).
  assert (Hm' : 0 <= m').
  { subst m'. destruct sh; try lia. apply Z.shiftl_nonneg, Hn. }
  pose proof (Z.div_eucl_eq m' d ltac:(lia)) as Heq.
  pose proof (Z.mod_pos_bound m' d Hd) as Hr.
  unfold Z.modulo in Hr.
  destruct (Z.div_eucl m' d) as [q r].
  apply binary_round_aux_signed. nia.
Qed.

End RoundingShape.

(** ** Arithmetic on numbers stays on numbers *)

Section FloatOps.

Lemma sub_not_nan x y :
  F64.is_nan x = false -> F64.is_finite y = true -> F64.is_nan (F64.sub x y) = false.
Proof.
  destruct x as [sx|sx| |sx mx ex], y as [sy|sy| |sy my ey];
    try discriminate; intros _ _; try reflexivity.
  - destruct sx, sy; reflexivity.
  - unfold F64.sub, SFsub. apply binary_normalize_not_nan.
Qed.

Lemma add_not_nan x y :
  F64.is_finite x = true -> F64.is_finite y = true -> F64.is_nan (F64.add x y) = false.
Proof.
  destruct x as [sx|sx| |sx mx ex], y as [sy|sy| |sy my ey];
    try discriminate; intros _ _; try reflexivity.
  - destruct sx, sy; reflexivity.
  - unfold F64.add, SFadd. apply binary_normalize_not_nan.
Qed.

Lemma div_not_nan x sy my ey :
  F64.is_nan x = false -> F64.is_nan (F64.div x (S754_finite sy my ey)) = false.
Proof.
  destruct x as [sx|sx| |sx mx ex]; try discriminate; intros _; try reflexivity.
  unfold F64.div, SFdiv, SFdiv_core_binary.
  set (sh := ex - ey - _).
  set (m' := match sh with Z0 => _ | Zpos _ => _ | Zneg _ => _ end).
  assert (Hm' : 0 <= m').
  { subst m'. destruct sh; try lia. apply Z.shiftl_nonneg. lia. }
  pose proof (Z.div_eucl_eq m' (Zpos my) ltac:(lia)) as Heq.
  pose proof (Z.mod_pos_bound m' (Zpos my) ltac:(lia)) as Hr.
  unfold Z.modulo in Hr.
  destruct (Z.div_eucl m' (Zpos my)) as [q r].
  apply binary_round_aux_signed. nia.
Qed.

Lemma mul_not_nan x sy my ey :
  F64.is_nan x = false -> F64.is_nan (F64.mul x (S754_finite sy my ey)) = false.
Proof.
  destruct x as [sx|sx| |sx mx ex]; try discriminate; intros _; try reflexivity.
  unfold F64.mul, SFmul. apply binary_round_aux_signed. lia.
Qed.

(** Float multiplication does not depend on the order of its operands. *)
Lemma mul_comm x y : F64.mul x y = F64.mul y x.
Proof.
  destruct x as [sx|sx| |sx mx ex], y as [sy|sy| |sy my ey];
    unfold F64.mul; simpl; try reflexivity;
    rewrite ?(xorb_comm sx sy); try reflexivity.
  rewrite (Pos.mul_comm mx my), (Z.add_comm ex ey). reflexivity.
Qed.

Lemma round_half_even_nonneg a b : 0 <= a -> 0 < b -> 0 <= Py.round_half_even a b.
Proof.
  intros Ha Hb. unfold Py.round_half_even.
  pose proof (Z.div_eucl_eq a b ltac:(lia)) as Heq.
  pose proof (Z.mod_pos_bound a b Hb) as Hr.
  unfold Z.modulo in Hr.
  destruct (Z.div_eucl a b) as [q r].
  assert (0 <= q) by nia.
  destruct (2 * r ?= b); [destruct (Z.even q)| |]; lia.
Qed.

Lemma decimal_digits_nonneg m e ndigits : 0 <= Py.decimal_digits m e ndigits.
Proof.
  unfold Py.decimal_digits. destruct (0 <=? e).
  - apply Z.mul_nonneg_nonneg; [apply Z.mul_nonneg_nonneg; [lia|]|];
      apply Z.pow_nonneg; lia.
  - destruct (Z.le_gt_cases 0 (- e)) as [He|He].
    + apply round_half_even_nonneg.
      * apply Z.mul_nonneg_nonneg; [lia | apply Z.pow_nonneg; lia].
      * apply Z.pow_pos_nonneg; lia.
    + rewrite (Z.pow_neg_r 2 (- e)) by lia.
      unfold Py.round_half_even. simpl. destruct (_ * _); simpl; lia.
Qed.

(** Rounding to decimals keeps the sign and never produces NaN. *)
Lemma round_signed x ndigits :
  F64.is_nan x = false -> 0 <= ndigits ->
  signed (F64.signbit x) (Py.round x ndigits).
Proof.
  destruct x as [s|s| |s m e]; try discriminate; intros _ Hn;
    try (split; reflexivity).
  simpl. apply of_ratio_signed.
  - apply decimal_digits_nonneg.
  - apply Z.pow_pos_nonneg; lia.
Qed.

End FloatOps.

(** ** The profile table built at startup *)

Section Table.

Lemma chemistries_dom : dom (cell_types BatteryCellMonitor_init) = list_to_set chemistries.
Proof.
  unfold BatteryCellMonitor_init, chemistries; simpl.
  rewrite !dom_insert_L, dom_empty_L. set_solver.
Qed.

Lemma known_chemistry c :
  is_Some (cell_types BatteryCellMonitor_init !! c) <-> c ∈ chemistries.
Proof.
  rewrite <- elem_of_dom, chemistries_dom. set_solver.
Qed.

Lemma unknown_chemistry c :
  cell_types BatteryCellMonitor_init !! c = None <-> c ∉ chemistries.
Proof.
  rewrite <- known_chemistry, eq_None_not_Some. reflexivity.
Qed.

Lemma chemistry_profile c :
  c ∈ chemistries ->
  exists specs, cell_types BatteryCellMonitor_init !! c = Some specs
                /\ profile_ok specs = true.
Proof.
  unfold chemistries. intros Hc.
  repeat (apply elem_of_cons in Hc as [->|Hc]);
    [eexists; split; [vm_compute; reflexivity | vm_compute; reflexivity] ..|].
  apply elem_of_nil in Hc as [].
Qed.

Lemma profile_ok_range specs :
  profile_ok specs = true ->
  exists s m e,
    F64.sub (maximum_voltage specs) (minimum_voltage specs) = S754_finite s m e.
Proof.
  unfold profile_ok. rewrite !andb_true_iff. intros [[[[_ H] _] _] _].
  destruct (F64.sub _ _) as [| | |s m e]; try discriminate. eauto.
Qed.

End Table.

(** ** Running the methods *)

Ltac run_M :=
  unfold mbind, M_bind, mret, M_ret, self_cell_types, getitem, lift, raise,
    random_random; simpl.

Section Methods.

Implicit Types (w : World) (specs : Profile) (c : string) (v : float).

Lemma draws_0 w : draws 0 w = w.
Proof. destruct w as [m cs a [src cur]]. reflexivity. Qed.

Lemma draws_draws n k w : draws n (draws k w) = draws (n + k) w.
Proof. unfold draws; simpl. do 2 f_equal. lia. Qed.

Lemma calculate_soc_known v c w specs :
  cell_types (monitor w) !! c = Some specs ->
  calculate_soc v c w =
    (match soc_raw specs v with
     | Ok soc => Ok (soc_clamp (Py.round soc 1))
     | Raise e => Raise e
     end, w).
Proof.
  intros Hc. unfold calculate_soc. run_M. rewrite Hc. simpl.
  destruct (soc_raw specs v); reflexivity.
Qed.

Lemma calculate_soc_unknown v c w :
  cell_types (monitor w) !! c = None ->
  calculate_soc v c w = (Raise (KeyError c), w).
Proof. intros Hc. unfold calculate_soc. run_M. rewrite Hc. reflexivity. Qed.

Lemma get_cell_status_known v c w specs :
  cell_types (monitor w) !! c = Some specs ->
  get_cell_status v c w = (Ok (status_of specs v), w).
Proof.
  intros Hc. unfold get_cell_status, status_of. run_M. rewrite Hc. simpl.
  destruct (F64.leb _ _); [reflexivity|]. destruct (F64.geb _ _); reflexivity.
Qed.

Lemma get_cell_status_unknown v c w :
  cell_types (monitor w) !! c = None ->
  get_cell_status v c w = (Raise (KeyError c), w).
Proof. intros Hc. unfold get_cell_status. run_M. rewrite Hc. reflexivity. Qed.

Lemma generate_random_temperature_run w :
  generate_random_temperature w =
    (Ok (Py.round (F64.add (F64.of_int 20)
                     (F64.mul (source (rng w) (cursor (rng w))) (F64.of_int 25))) 1),
     draws 1 w).
Proof. reflexivity. Qed.

Lemma soc_raw_ok specs v :
  profile_ok specs = true ->
  exists soc, soc_raw specs v = Ok soc
              /\ (F64.is_nan v = false -> F64.is_nan soc = false).
Proof.
  intros Hok. pose proof Hok as Hfin.
  unfold profile_ok in Hfin. rewrite !andb_true_iff in Hfin.
  destruct Hfin as [[[[[Hmin _] _] _] _] _].
  destruct (profile_ok_range specs Hok) as (s & m & e & Hr).
  unfold soc_raw, Py.truediv. rewrite Hr. simpl.
  eexists; split; [reflexivity|]. intros Hv.
  change (F64.of_int 100) with (S754_finite false 7036874417766400 (-46)).
  apply mul_not_nan, div_not_nan, sub_not_nan; assumption.
Qed.

End Methods.

(** ** The batch loop *)

Section Batch.

Implicit Types (w : World) (config : Reading) (acc : list CellData).

Lemma bind_run {A B} (m : M A) (k : A -> M B) w :
  (m ≫= k) w =
    match m w with
    | (Ok a, w') => k a w'
    | (Raise e, w') => (Raise e, w')
    end.
Proof. reflexivity. Qed.

(** One iteration of the loop, whatever the table is. *)
Lemma process_cells_loop_step i config rest acc w :
  process_cells_loop i (config :: rest) acc w =
    match cell_types (monitor w) !! type config with
    | None => (Raise (KeyError (type config)), draws 1 w)
    | Some specs =>
        match soc_raw specs (voltage config) with
        | Ok soc =>
            process_cells_loop (S i) rest
              (acc ++ [cell_data i config specs soc (source (rng w) (cursor (rng w)))])
              (draws 1 w)
        | Raise e => (Raise e, draws 1 w)
        end
    end.
Proof.
  cbn [process_cells_loop].
  rewrite bind_run, generate_random_temperature_run, bind_run.
  destruct (cell_types (monitor w) !! type config) as [specs|] eqn:Hc.
  - rewrite (calculate_soc_known _ _ _ specs) by exact Hc.
    destruct (soc_raw specs (voltage config)) as [soc|e]; [|reflexivity].
    rewrite bind_run, (get_cell_status_known _ _ _ specs) by exact Hc.
    run_M. rewrite Hc. reflexivity.
  - rewrite calculate_soc_unknown by exact Hc. reflexivity.
Qed.

(** The loop only ever advances the random generator. *)
Lemma process_cells_loop_frame cfg :
  forall i acc w,
    exists n, (n <= length cfg)%nat
              /\ snd (process_cells_loop i cfg acc w) = draws n w.
Proof.
  induction cfg as [|config rest IH]; intros i acc w.
  - exists 0%nat. split; [lia|]. simpl. symmetry. apply draws_0.
  - rewrite process_cells_loop_step.
    destruct (cell_types (monitor w) !! type config) as [specs|];
      [destruct (soc_raw specs (voltage config)) as [soc|e]|];
      try (exists 1%nat; split; [simpl; lia | reflexivity]).
    destruct (IH (S i) (acc ++ [cell_data i config specs soc
                                  (source (rng w) (cursor (rng w)))]) (draws 1 w))
      as (n & Hn & Heq).
    exists (n + 1)%nat. split; [simpl; lia|].
    rewrite Heq. apply draws_draws.
Qed.

(** With the startup table and known chemistries the loop runs to its end
    and appends one dict per reading. *)
Lemma process_cells_loop_ok cfg :
  forall i acc w,
    monitor w = BatteryCellMonitor_init ->
    Forall known cfg ->
    exists out,
      process_cells_loop i cfg acc w = (Ok (acc ++ out), draws (length cfg) w)
      /\ length out = length cfg
      /\ forall k config,
           cfg !! k = Some config ->
           exists specs soc,
             cell_types BatteryCellMonitor_init !! type config = Some specs
             /\ soc_raw specs (voltage config) = Ok soc
             /\ out !! k =
                  Some (cell_data (i + k) config specs soc
                          (source (rng w) (k + cursor (rng w)))).
Proof.
  induction cfg as [|config rest IH]; intros i acc w Hm Hall.
  - exists []. rewrite app_nil_r, draws_0. repeat split.
    intros k config Hk. rewrite lookup_nil in Hk. discriminate.
  - apply Forall_cons in Hall as [Hc Hrest].
    destruct (chemistry_profile _ Hc) as (specs & Hspecs & Hok).
    destruct (soc_raw_ok specs (voltage config) Hok) as (soc & Hsoc & _).
    rewrite process_cells_loop_step, Hm, Hspecs, Hsoc.
    set (rec := cell_data i config specs soc (source (rng w) (cursor (rng w)))).
    destruct (IH (S i) (acc ++ [rec]) (draws 1 w) Hm Hrest) as (out & Hrun & Hlen & Hout).
    exists (rec :: out). rewrite Hrun, <- app_assoc, draws_draws. simpl.
    rewrite Nat.add_1_r, Hlen. repeat split.
    intros [|k] config' Hk; simpl in Hk.
    + injection Hk as <-. exists specs, soc. rewrite Nat.add_0_r. auto.
    + destruct (Hout k config' Hk) as (specs' & soc' & H1 & H2 & H3).
      exists specs', soc'. repeat split; try assumption.
      simpl. rewrite H3. simpl.
      replace (i + S k)%nat with (S (i + k)) by lia.
      replace (S (k + cursor (rng w))) with (k + S (cursor (rng w)))%nat by lia.
      reflexivity.
Qed.

(** The first reading with an unknown chemistry stops the loop with the
    [KeyError] of the table lookup. *)
Lemma process_cells_loop_fail pre :
  forall bad post i acc w,
    monitor w = BatteryCellMonitor_init ->
    Forall known pre ->
    ~ known bad ->
    process_cells_loop i (pre ++ bad :: post) acc w =
      (Raise (KeyError (type bad)), draws (S (length pre)) w).
Proof.
  induction pre as [|config rest IH]; intros bad post i acc w Hm Hall Hbad.
  - cbn [app]. rewrite process_cells_loop_step, Hm.
    apply unknown_chemistry in Hbad. rewrite Hbad. reflexivity.
  - apply Forall_cons in Hall as [Hc Hrest].
    destruct (chemistry_profile _ Hc) as (specs & Hspecs & Hok).
    destruct (soc_raw_ok specs (voltage config) Hok) as (soc & Hsoc & _).
    cbn [app]. rewrite process_cells_loop_step, Hm, Hspecs, Hsoc.
    rewrite IH by assumption. rewrite draws_draws, Nat.add_1_r. reflexivity.
Qed.

End Batch.

(** ** State of charge *)

Section StateOfCharge.

Lemma compare_float_int_number x z :
  F64.is_nan x = false -> exists c, Py.compare_float_int x z = Some c.
Proof. destruct x; try discriminate; intros _; simpl; eauto. Qed.

(** A float that is not below 100 is above 0. *)
Lemma compare_100_0 x c :
  Py.compare_float_int x 100 = Some c -> c <> Lt ->
  Py.compare_float_int x 0 = Some Gt.
Proof.
  destruct x as [s|s| |s m e]; simpl; try discriminate.
  - intros [= <-] Hc. congruence.
  - intros [= <-] Hc. destruct s; congruence.
  - intros [= <-] Hc. f_equal.
    destruct (0 <=? e) eqn:He.
    + apply Z.leb_le in He.
      pose proof (Z.pow_pos_nonneg 2 e ltac:(lia) He) as Hp.
      destruct (Z.compare_spec ((if s then Z.neg m else Z.pos m) * 2 ^ e) 100);
        try congruence; apply Z.compare_gt_iff; lia.
    + apply Z.leb_gt in He.
      pose proof (Z.pow_pos_nonneg 2 (- e) ltac:(lia) ltac:(lia)) as Hp.
      destruct (Z.compare_spec (if s then Z.neg m else Z.pos m) (100 * 2 ^ (- e)));
        try congruence; apply Z.compare_gt_iff; lia.
Qed.

(** On numbers, the nested [max]/[min] of the code is the clamp of the
    specification. *)
Lemma soc_clamp_spec x :
  F64.is_nan x = false -> soc_clamp x = clamp_0_100 (PyFloat x).
Proof.
  intros Hx.
  destruct (compare_float_int_number x 100 Hx) as [c100 H100].
  destruct (compare_float_int_number x 0 Hx) as [c0 H0].
  pose proof (compare_100_0 x c100 H100) as Hmono.
  unfold soc_clamp, clamp_0_100, Py.max, Py.min, Py.lt, Py.gt, Py.le, Py.ge.
  cbn [Py.compare]. rewrite H100.
  destruct c100; cbn [Py.compare option_map CompOpp Z.compare].
  - rewrite Hmono by discriminate. reflexivity.
  - rewrite H0. destruct c0; reflexivity.
  - rewrite Hmono by discriminate. reflexivity.
Qed.

(** The clamp of the specification lands in [[0, 100]] on numbers. *)
Lemma clamp_0_100_bounds x :
  F64.is_nan x = false ->
  Py.le (PyInt 0) (clamp_0_100 (PyFloat x)) = true
  /\ Py.le (clamp_0_100 (PyFloat x)) (PyInt 100) = true.
Proof.
  intros Hx.
  destruct (compare_float_int_number x 100 Hx) as [c100 H100].
  destruct (compare_float_int_number x 0 Hx) as [c0 H0].
  unfold clamp_0_100, Py.le, Py.ge. cbn [Py.compare]. rewrite H0, H100.
  destruct c0, c100; cbn [Py.compare option_map CompOpp];
    rewrite ?H0, ?H100; split; reflexivity.
Qed.

Lemma is_finite_not_nan x : F64.is_finite x = true -> F64.is_nan x = false.
Proof. destruct x; try discriminate; reflexivity. Qed.

(** The percentage of the formula, written out. *)
Lemma soc_raw_formula specs v soc :
  soc_raw specs v = Ok soc ->
  soc = F64.mul (F64.div (F64.sub v (minimum_voltage specs))
                   (F64.sub (maximum_voltage specs) (minimum_voltage specs)))
          (F64.of_int 100).
Proof.
  unfold soc_raw, Py.truediv. destruct (F64.is_zero _); [discriminate|].
  intros [= <-]. reflexivity.
Qed.

(** At the two ends of each band the result is the int 0 and the int 100. *)
Lemma soc_at_limits c :
  c ∈ chemistries ->
  exists specs lo hi,
    cell_types BatteryCellMonitor_init !! c = Some specs
    /\ soc_raw specs (minimum_voltage specs) = Ok lo
    /\ soc_clamp (Py.round lo 1) = PyInt 0
    /\ soc_raw specs (maximum_voltage specs) = Ok hi
    /\ soc_clamp (Py.round hi 1) = PyInt 100.
Proof.
  unfold chemistries. intros Hc.
  repeat (apply elem_of_cons in Hc as [->|Hc]);
    [do 3 eexists; repeat split; vm_compute; reflexivity ..|].
  apply elem_of_nil in Hc as [].
Qed.

(** C1, as the code has it: for each of the four chemistries and every
    finite voltage, the state of charge is the percentage
    [(voltage - min) / (max - min) * 100] rounded to one decimal and then
    clamped to [[0, 100]]; the call succeeds, leaves the world alone and its
    result lies between 0 and 100.  At the minimum voltage it is 0 and at
    the maximum voltage it is 100. *)
Theorem calculate_soc_rounds_then_clamps c voltage w :
  c ∈ chemistries ->
  F64.is_finite voltage = true ->
  monitor w = BatteryCellMonitor_init ->
  exists specs,
    cell_types BatteryCellMonitor_init !! c = Some specs
    /\ (let soc :=
          F64.mul (F64.div (F64.sub voltage (minimum_voltage specs))
                     (F64.sub (maximum_voltage specs) (minimum_voltage specs)))
            (F64.of_int 100) in
        let result := clamp_0_100 (PyFloat (Py.round soc 1)) in
        calculate_soc voltage c w = (Ok result, w)
        /\ Py.le (PyInt 0) result = true
        /\ Py.le result (PyInt 100) = true)
    /\ calculate_soc (minimum_voltage specs) c w = (Ok (PyInt 0), w)
    /\ calculate_soc (maximum_voltage specs) c w = (Ok (PyInt 100), w).
Proof.
  intros Hc Hv Hm.
  destruct (soc_at_limits c Hc) as (specs & lo & hi & Hspecs & Hlo & Hlo0 & Hhi & Hhi100).
  destruct (chemistry_profile c Hc) as (specs' & Hspecs' & Hok).
  assert (specs' = specs) as -> by congruence.
  destruct (soc_raw_ok specs voltage Hok) as (soc & Hsoc & Hnan).
  specialize (Hnan (is_finite_not_nan _ Hv)).
  assert (Hround : F64.is_nan (Py.round soc 1) = false)
    by (apply (round_signed soc 1 Hnan); lia).
  exists specs. split; [exact Hspecs|]. rewrite <- Hm in Hspecs.
  rewrite !(calculate_soc_known _ c w specs Hspecs), Hlo, Hhi, Hlo0, Hhi100, Hsoc.
  rewrite <- (soc_raw_formula _ _ _ Hsoc). cbv zeta.
  rewrite (soc_clamp_spec _ Hround).
  destruct (clamp_0_100_bounds _ Hround) as [H0 H100].
  repeat split; assumption.
Qed.

Lemma calculate_soc_rounds_then_clamps_witness :
  exists specs,
    cell_types BatteryCellMonitor_init !! "NMC" = Some specs
    /\ (let soc :=
          F64.mul (F64.div (F64.sub (F64.dec 36 1) (minimum_voltage specs))
                     (F64.sub (maximum_voltage specs) (minimum_voltage specs)))
            (F64.of_int 100) in
        let result := clamp_0_100 (PyFloat (Py.round soc 1)) in
        calculate_soc (F64.dec 36 1) "NMC" world0 = (Ok result, world0)
        /\ Py.le (PyInt 0) result = true
        /\ Py.le result (PyInt 100) = true)
    /\ calculate_soc (minimum_voltage specs) "NMC" world0 = (Ok (PyInt 0), world0)
    /\ calculate_soc (maximum_voltage specs) "NMC" world0 = (Ok (PyInt 100), world0).
Proof.
  apply (calculate_soc_rounds_then_clamps "NMC" (F64.dec 36 1) world0).
  - unfold chemistries. apply list_elem_of_further, list_elem_of_here.
  - vm_compute. reflexivity.
  - reflexivity.
Defined.

(** C1 as worded fails: for an LFP cell at 3.01 V the code returns 26.2,
    while the unrounded percentage clamped to [[0, 100]] is about 26.25. *)
Lemma calculate_soc_is_not_the_unrounded_clamp :
  exists specs soc result,
    cell_types BatteryCellMonitor_init !! "LFP" = Some specs
    /\ F64.is_finite (F64.dec 301 2) = true
    /\ soc = F64.mul (F64.div (F64.sub (F64.dec 301 2) (minimum_voltage specs))
                       (F64.sub (maximum_voltage specs) (minimum_voltage specs)))
              (F64.of_int 100)
    /\ fst (calculate_soc (F64.dec 301 2) "LFP" world0) = Ok result
    /\ result = PyFloat (F64.dec 262 1)
    /\ Py.lt result (clamp_0_100 (PyFloat soc)) = true
    /\ Py.eq result (clamp_0_100 (PyFloat soc)) = false.
Proof. do 3 eexists. repeat split; vm_compute; reflexivity. Qed.

(** The clamp returns the int 0, the int 100 or its argument. *)
Lemma soc_clamp_cases x :
  soc_clamp x = PyInt 0 \/ soc_clamp x = PyInt 100 \/ soc_clamp x = PyFloat x.
Proof.
  unfold soc_clamp, Py.max, Py.min.
  destruct (Py.lt (PyFloat x) (PyInt 100)).
  - destruct (Py.gt (PyFloat x) (PyInt 0)); auto.
  - change (Py.gt (PyInt 100) (PyInt 0)) with true. auto.
Qed.

(** The clamp never hands back a float that is not finite and non-zero. *)
Lemma soc_clamp_float x :
  soc_clamp x = PyFloat x -> exists s m e, x = S754_finite s m e.
Proof.
  destruct x as [s|[]| |s m e]; try (vm_compute; discriminate); eauto.
Qed.

(** C10: for each of the four chemistries and every voltage,
    [calculate_soc] first rounds the percentage
    [(voltage - min) / (max - min) * 100] to one decimal and then clamps the
    rounded value with [max(0, min(100, _))].  What it returns is the int 0,
    the int 100, or the rounded value itself, which is the float nearest to
    a whole number of tenths. *)
Theorem calculate_soc_one_decimal c voltage w :
  c ∈ chemistries ->
  monitor w = BatteryCellMonitor_init ->
  exists specs,
    cell_types BatteryCellMonitor_init !! c = Some specs
    /\ (let soc :=
          F64.mul (F64.div (F64.sub voltage (minimum_voltage specs))
                     (F64.sub (maximum_voltage specs) (minimum_voltage specs)))
            (F64.of_int 100) in
        let rounded := Py.round soc 1 in
        let result := Py.max (PyInt 0) (Py.min (PyInt 100) (PyFloat rounded)) in
        calculate_soc voltage c w = (Ok result, w)
        /\ (result = PyInt 0 \/ result = PyInt 100
            \/ (result = PyFloat rounded
                /\ exists s tenths, 0 <= tenths
                                    /\ rounded = F64.of_ratio s tenths 10))).
Proof.
  intros Hc Hm.
  destruct (chemistry_profile c Hc) as (specs & Hspecs & Hok).
  destruct (soc_raw_ok specs voltage Hok) as (soc & Hsoc & _).
  exists specs. split; [exact Hspecs|]. rewrite <- Hm in Hspecs.
  rewrite (calculate_soc_known _ c w specs Hspecs), Hsoc.
  rewrite <- (soc_raw_formula _ _ _ Hsoc). cbv zeta.
  fold (soc_clamp (Py.round soc 1)). split; [reflexivity|].
  destruct (soc_clamp_cases (Py.round soc 1)) as [H|[H|H]]; auto.
  right; right. split; [exact H|].
  destruct soc as [s|s| |s m e];
    try (apply soc_clamp_float in H as (s' & m' & e' & H); discriminate).
  exists s, (Py.decimal_digits m e 1). split; [apply decimal_digits_nonneg|].
  reflexivity.
Qed.

Lemma calculate_soc_one_decimal_witness :
  exists specs,
    cell_types BatteryCellMonitor_init !! "LCO" = Some specs
    /\ (let soc :=
          F64.mul (F64.div (F64.sub (F64.dec 371 2) (minimum_voltage specs))
                     (F64.sub (maximum_voltage specs) (minimum_voltage specs)))
            (F64.of_int 100) in
        let rounded := Py.round soc 1 in
        let result := Py.max (PyInt 0) (Py.min (PyInt 100) (PyFloat rounded)) in
        calculate_soc (F64.dec 371 2) "LCO" world0 = (Ok result, world0)
        /\ (result = PyInt 0 \/ result = PyInt 100
            \/ (result = PyFloat rounded
                /\ exists s tenths, 0 <= tenths
                                    /\ rounded = F64.of_ratio s tenths 10))).
Proof.
  apply (calculate_soc_one_decimal "LCO" (F64.dec 371 2) world0).
  - unfold chemistries. do 2 apply list_elem_of_further. apply list_elem_of_here.
  - reflexivity.
Defined.

End StateOfCharge.

(** ** Status classification *)

Section Status.

(** At the two thresholds themselves the status is LOW and HIGH. *)
Lemma status_at_thresholds c :
  c ∈ chemistries ->
  exists specs,
    cell_types BatteryCellMonitor_init !! c = Some specs
    /\ status_of specs (F64.mul (F64.dec 105 2) (minimum_voltage specs)) = "LOW"
    /\ status_of specs (F64.mul (F64.dec 95 2) (maximum_voltage specs)) = "HIGH".
Proof.
  unfold chemistries. intros Hc.
  repeat (apply elem_of_cons in Hc as [->|Hc]);
    [eexists; repeat split; vm_compute; reflexivity ..|].
  apply elem_of_nil in Hc as [].
Qed.

(** C2: for each of the four chemistries and every voltage the status is
    LOW exactly when [voltage <= 1.05 * minimum_voltage], HIGH exactly when
    [voltage >= 0.95 * maximum_voltage] and the voltage is not LOW, and NORMAL
    exactly when neither test holds; the LOW test comes first.  The status
    is one of the three strings, the call leaves the world alone, and at the
    two threshold values the status is LOW and HIGH. *)
Theorem get_cell_status_thresholds c voltage w :
  c ∈ chemistries ->
  monitor w = BatteryCellMonitor_init ->
  exists specs status,
    cell_types BatteryCellMonitor_init !! c = Some specs
    /\ get_cell_status voltage c w = (Ok status, w)
    /\ (let low := F64.mul (F64.dec 105 2) (minimum_voltage specs) in
        let high := F64.mul (F64.dec 95 2) (maximum_voltage specs) in
        (status = "LOW" <-> F64.leb voltage low = true)
        /\ (status = "HIGH" <->
              F64.geb voltage high = true /\ F64.leb voltage low = false)
        /\ (status = "NORMAL" <->
              F64.leb voltage low = false /\ F64.geb voltage high = false)
        /\ (status = "LOW" \/ status = "NORMAL" \/ status = "HIGH")
        /\ get_cell_status low c w = (Ok "LOW", w)
        /\ get_cell_status high c w = (Ok "HIGH", w)).
Proof.
  intros Hc Hm.
  destruct (status_at_thresholds c Hc) as (specs & Hspecs & Hlow & Hhigh).
  exists specs, (status_of specs voltage). split; [exact Hspecs|].
  rewrite <- Hm in Hspecs. cbv zeta.
  rewrite !(get_cell_status_known _ c w specs Hspecs), Hlow, Hhigh.
  split; [reflexivity|].
  unfold status_of.
  rewrite (mul_comm (F64.dec 105 2)), (mul_comm (F64.dec 95 2)).
  destruct (F64.leb voltage _), (F64.geb voltage _);
    repeat split; auto; try discriminate; intros []; discriminate.
Qed.

Lemma get_cell_status_thresholds_witness :
  exists specs status,
    cell_types BatteryCellMonitor_init !! "NMC" = Some specs
    /\ get_cell_status (F64.dec 36 1) "NMC" world0 = (Ok status, world0)
    /\ (let low := F64.mul (F64.dec 105 2) (minimum_voltage specs) in
        let high := F64.mul (F64.dec 95 2) (maximum_voltage specs) in
        (status = "LOW" <-> F64.leb (F64.dec 36 1) low = true)
        /\ (status = "HIGH" <->
              F64.geb (F64.dec 36 1) high = true /\ F64.leb (F64.dec 36 1) low = false)
        /\ (status = "NORMAL" <->
              F64.leb (F64.dec 36 1) low = false /\ F64.geb (F64.dec 36 1) high = false)
        /\ (status = "LOW" \/ status = "NORMAL" \/ status = "HIGH")
        /\ get_cell_status low "NMC" world0 = (Ok "LOW", world0)
        /\ get_cell_status high "NMC" world0 = (Ok "HIGH", world0)).
Proof.
  apply (get_cell_status_thresholds "NMC" (F64.dec 36 1) world0).
  - unfold chemistries. apply list_elem_of_further, list_elem_of_here.
  - reflexivity.
Defined.

End Status.

(** ** Batch evaluation *)

Section BatchEvaluation.

Implicit Types (w : World) (config : Reading) (cfg : list Reading).

Lemma process_cells_data_ok cfg w :
  monitor w = BatteryCellMonitor_init ->
  Forall known cfg ->
  exists out,
    process_cells_data cfg w = (Ok out, draws (length cfg) w)
    /\ length out = length cfg
    /\ forall k config,
         cfg !! k = Some config ->
         exists specs soc,
           cell_types BatteryCellMonitor_init !! type config = Some specs
           /\ soc_raw specs (voltage config) = Ok soc
           /\ out !! k =
                Some (cell_data (S k) config specs soc
                        (source (rng w) (k + cursor (rng w)))).
Proof.
  intros Hm Hall. unfold process_cells_data.
  destruct (process_cells_loop_ok cfg 1 [] w Hm Hall) as (out & Hrun & Hlen & Hout).
  exists out. auto.
Qed.

(** Either all chemistries are known, or there is a first unknown one. *)
Lemma known_or_first_unknown cfg :
  Forall known cfg
  \/ exists pre bad post,
       cfg = pre ++ bad :: post /\ Forall known pre /\ ~ known bad.
Proof.
  induction cfg as [|config rest IH]; [left; constructor|].
  destruct (decide (type config ∈ chemistries)) as [Hc|Hc].
  - destruct IH as [IH|(pre & bad & post & -> & Hpre & Hbad)].
    + left. constructor; assumption.
    + right. exists (config :: pre), bad, post. repeat split; auto.
  - right. exists [], config, rest. repeat split; auto.
Qed.

(** C3: for every sequence of readings whose chemistries are all known,
    batch evaluation returns a list with exactly one record per reading, in
    the order of the input; the record at (0-based) position [k] has the
    identifier [Cell_] followed by the decimal numeral of [k + 1] and carries
    the chemistry, voltage and current of the reading at position [k].  On
    the empty sequence the result is the empty list. *)
Theorem process_cells_data_one_record_per_reading cfg w :
  monitor w = BatteryCellMonitor_init ->
  Forall known cfg ->
  exists out,
    fst (process_cells_data cfg w) = Ok out
    /\ length out = length cfg
    /\ (forall k config,
          cfg !! k = Some config ->
          exists rec,
            out !! k = Some rec
            /\ Cell_ID rec = "Cell_" +:+ pretty (S k)
            /\ Type_ rec = type config
            /\ Voltage_V rec = voltage config
            /\ Current_A rec = current config)
    /\ fst (process_cells_data [] w) = Ok [].
Proof.
  intros Hm Hall.
  destruct (process_cells_data_ok cfg w Hm Hall) as (out & Hrun & Hlen & Hout).
  exists out. rewrite Hrun. repeat split; try assumption.
  intros k config Hk.
  destruct (Hout k config Hk) as (specs & soc & _ & _ & Hrec).
  eexists. split; [exact Hrec|]. repeat split.
Qed.

Lemma process_cells_data_one_record_per_reading_witness :
  exists out,
    fst (process_cells_data default_config world0) = Ok out
    /\ length out = length default_config
    /\ (forall k config,
          default_config !! k = Some config ->
          exists rec,
            out !! k = Some rec
            /\ Cell_ID rec = "Cell_" +:+ pretty (S k)
            /\ Type_ rec = type config
            /\ Voltage_V rec = voltage config
            /\ Current_A rec = current config)
    /\ fst (process_cells_data [] world0) = Ok [].
Proof.
  apply (process_cells_data_one_record_per_reading default_config world0).
  - reflexivity.
  - unfold default_config, known, chemistries; simpl.
    repeat constructor.
Defined.

(** The identifiers are the strings [Cell_1], [Cell_2], ... *)
Example cell_ids_1_2_10 :
  "Cell_" +:+ pretty 1%nat = "Cell_1"
  /\ "Cell_" +:+ pretty 2%nat = "Cell_2"
  /\ "Cell_" +:+ pretty 10%nat = "Cell_10".
Proof. repeat split; vm_compute; reflexivity. Qed.

Lemma xyz_unknown : ~ known xyz_reading.
Proof.
  unfold known, chemistries; simpl.
  rewrite !elem_of_cons, elem_of_nil. intros [|[|[|[|[]]]]]; discriminate.
Qed.

Lemma process_cells_data_fail pre bad post w :
  monitor w = BatteryCellMonitor_init ->
  Forall known pre ->
  ~ known bad ->
  process_cells_data (pre ++ bad :: post) w =
    (Raise (KeyError (type bad)), draws (S (length pre)) w).
Proof. intros. unfold process_cells_data. apply process_cells_loop_fail; assumption. Qed.

(** C4: with the startup table, batch evaluation fails if and only if some
    reading names a chemistry outside the four profiles.  The failure is the
    [KeyError] of the table lookup, carrying the offending identifier, and it
    reaches the caller as the result of the call; when the call succeeds,
    every record carries the profile that the table holds for its own
    chemistry, so no unknown identifier was replaced by a default.  Any
    sequence containing the reading XYZ, 3.0 V, 1.0 A fails in this way, and
    that reading alone fails with the key XYZ. *)
Theorem process_cells_data_unknown_chemistry cfg w :
  monitor w = BatteryCellMonitor_init ->
  ((exists e, fst (process_cells_data cfg w) = Raise e)
     <-> Exists (fun config => type config ∉ chemistries) cfg)
  /\ (forall e,
        fst (process_cells_data cfg w) = Raise e ->
        exists config,
          config ∈ cfg /\ (type config ∉ chemistries) /\ e = KeyError (type config))
  /\ (forall out,
        fst (process_cells_data cfg w) = Ok out ->
        Forall (fun rec =>
                  cell_types BatteryCellMonitor_init !! Type_ rec = Some (Specs rec))
          out)
  /\ (xyz_reading ∈ cfg ->
      exists key,
        fst (process_cells_data cfg w) = Raise (KeyError key) /\ (key ∉ chemistries))
  /\ fst (process_cells_data [xyz_reading] w) = Raise (KeyError "XYZ").
Proof.
  intros Hm.
  assert (Hxyz : fst (process_cells_data [xyz_reading] w) = Raise (KeyError "XYZ")).
  { exact (f_equal fst (process_cells_data_fail [] xyz_reading [] w Hm
                          (Forall_nil_2 known) xyz_unknown)). }
  destruct (known_or_first_unknown cfg)
    as [Hall|(pre & bad & post & -> & Hpre & Hbad)].
  - destruct (process_cells_data_ok cfg w Hm Hall) as (out & Hrun & Hlen & Hout).
    rewrite Hrun. simpl. repeat split.
    + intros [e He]. discriminate.
    + intros Hex. apply Exists_exists in Hex as (config & Hin & Hc).
      rewrite Forall_forall in Hall. destruct (Hc (Hall _ Hin)).
    + intros e He. discriminate.
    + intros out' [= <-]. apply Forall_lookup. intros k rec Hk.
      destruct (lookup_lt_is_Some_2 cfg k) as [config Hcfg].
      { rewrite <- Hlen. eapply lookup_lt_Some, Hk. }
      destruct (Hout k config Hcfg) as (specs & soc & Hspecs & _ & Hrec).
      rewrite Hk in Hrec. injection Hrec as ->. exact Hspecs.
    + intros Hin. rewrite Forall_forall in Hall.
      destruct (xyz_unknown (Hall _ Hin)).
    + exact Hxyz.
  - rewrite (process_cells_data_fail pre bad post w Hm Hpre Hbad). simpl.
    assert (Hin : bad ∈ pre ++ bad :: post) by set_solver.
    repeat split.
    + intros _. apply Exists_exists. exists bad. split; assumption.
    + intros _. eauto.
    + intros e [= <-]. exists bad. repeat split; assumption.
    + intros out Hout. discriminate.
    + intros _. exists (type bad). split; [reflexivity | exact Hbad].
    + exact Hxyz.
Qed.

Lemma process_cells_data_unknown_chemistry_witness :
  ((exists e, fst (process_cells_data (default_config ++ [xyz_reading]) world0) = Raise e)
     <-> Exists (fun config => type config ∉ chemistries) (default_config ++ [xyz_reading]))
  /\ (forall e,
        fst (process_cells_data (default_config ++ [xyz_reading]) world0) = Raise e ->
        exists config,
          config ∈ default_config ++ [xyz_reading]
          /\ (type config ∉ chemistries) /\ e = KeyError (type config))
  /\ (forall out,
        fst (process_cells_data (default_config ++ [xyz_reading]) world0) = Ok out ->
        Forall (fun rec =>
                  cell_types BatteryCellMonitor_init !! Type_ rec = Some (Specs rec))
          out)
  /\ (xyz_reading ∈ default_config ++ [xyz_reading] ->
      exists key,
        fst (process_cells_data (default_config ++ [xyz_reading]) world0)
          = Raise (KeyError key)
        /\ (key ∉ chemistries))
  /\ fst (process_cells_data [xyz_reading] world0) = Raise (KeyError "XYZ").
Proof.
  apply (process_cells_data_unknown_chemistry (default_config ++ [xyz_reading]) world0).
  reflexivity.
Defined.

(** C5: for every sequence of readings with known chemistries, the record
    of each reading reports as power the product of its voltage and current
    rounded to two decimals.  For 3.2 V and 1.0 A that is 3.2, and the LFP
    example at 2.8 V and 1.0 A yields a power of 2.8. *)
Theorem process_cells_data_power cfg w :
  monitor w = BatteryCellMonitor_init ->
  Forall known cfg ->
  exists out,
    fst (process_cells_data cfg w) = Ok out
    /\ (forall k config,
          cfg !! k = Some config ->
          exists rec,
            out !! k = Some rec
            /\ Power_W rec = Py.round (F64.mul (voltage config) (current config)) 2)
    /\ Py.round (F64.mul (F64.dec 32 1) (F64.dec 10 1)) 2 = F64.dec 32 1
    /\ res_map (map Power_W) (fst (process_cells_data [lfp_reading] w))
       = Ok [F64.dec 28 1].
Proof.
  intros Hm Hall.
  destruct (process_cells_data_ok cfg w Hm Hall) as (out & Hrun & Hlen & Hout).
  exists out. rewrite Hrun. split; [reflexivity|]. split; [|split].
  - intros k config Hk.
    destruct (Hout k config Hk) as (specs & soc & _ & _ & Hrec).
    eexists. split; [exact Hrec | reflexivity].
  - vm_compute. reflexivity.
  - destruct (process_cells_data_ok [lfp_reading] w Hm) as (out1 & Hrun1 & Hlen1 & Hout1).
    { repeat constructor. }
    rewrite Hrun1. cbn [fst res_map].
    destruct (Hout1 0%nat lfp_reading eq_refl) as (specs & soc & _ & _ & Hrec).
    destruct out1 as [|rec [|rec' out1]]; try discriminate.
    injection Hrec as ->. cbn [map Power_W cell_data].
    vm_compute. reflexivity.
Qed.

Lemma process_cells_data_power_witness :
  exists out,
    fst (process_cells_data default_config world0) = Ok out
    /\ (forall k config,
          default_config !! k = Some config ->
          exists rec,
            out !! k = Some rec
            /\ Power_W rec = Py.round (F64.mul (voltage config) (current config)) 2)
    /\ Py.round (F64.mul (F64.dec 32 1) (F64.dec 10 1)) 2 = F64.dec 32 1
    /\ res_map (map Power_W) (fst (process_cells_data [lfp_reading] world0))
       = Ok [F64.dec 28 1].
Proof.
  apply (process_cells_data_power default_config world0).
  - reflexivity.
  - unfold default_config, known, chemistries; simpl.
    repeat constructor.
Defined.

(** The end-to-end examples of the specification, run on the code. *)
Example lfp_end_to_end :
  exists rec,
    fst (process_cells_data [lfp_reading] world0) = Ok [rec]
    /\ Cell_ID rec = "Cell_1"
    /\ Voltage_V rec = F64.dec 28 1
    /\ Current_A rec = F64.dec 10 1
    /\ Power_W rec = F64.dec 28 1
    /\ SOC_pct rec = PyInt 0
    /\ Status rec = "LOW".
Proof. eexists. repeat split; vm_compute; reflexivity. Qed.

Example nmc_end_to_end :
  exists rec,
    fst (process_cells_data
           [{| type := "NMC"; voltage := F64.dec 36 1; current := F64.dec 10 1 |}]
           world0) = Ok [rec]
    /\ SOC_pct rec = PyFloat (F64.dec 500 1)
    /\ Status rec = "NORMAL".
Proof. eexists. repeat split; vm_compute; reflexivity. Qed.

(** *** Effects of a batch evaluation *)

(** Two runs on worlds with the same table agree in everything but the
    temperatures, whatever the two generators hold. *)
Lemma process_cells_loop_temperature_only cfg :
  forall i acc1 acc2 w1 w2,
    monitor w1 = monitor w2 ->
    map without_temperature acc1 = map without_temperature acc2 ->
    res_map (map without_temperature) (fst (process_cells_loop i cfg acc1 w1))
    = res_map (map without_temperature) (fst (process_cells_loop i cfg acc2 w2)).
Proof.
  induction cfg as [|config rest IH]; intros i acc1 acc2 w1 w2 Hm Hacc.
  - simpl. f_equal. exact Hacc.
  - rewrite !process_cells_loop_step, Hm.
    destruct (cell_types (monitor w2) !! type config) as [specs|]; [|reflexivity].
    destruct (soc_raw specs (voltage config)) as [soc|e]; [|reflexivity].
    apply IH; [exact Hm|].
    rewrite !map_app, Hacc. reflexivity.
Qed.

(** Two runs on worlds with the same table and the same generator agree. *)
Lemma process_cells_loop_deterministic cfg :
  forall i acc w1 w2,
    monitor w1 = monitor w2 ->
    rng w1 = rng w2 ->
    fst (process_cells_loop i cfg acc w1) = fst (process_cells_loop i cfg acc w2).
Proof.
  induction cfg as [|config rest IH]; intros i acc w1 w2 Hm Hg.
  - reflexivity.
  - rewrite !process_cells_loop_step, Hm, Hg.
    destruct (cell_types (monitor w2) !! type config) as [specs|]; [|reflexivity].
    destruct (soc_raw specs (voltage config)) as [soc|e]; [|reflexivity].
    apply IH; simpl; [exact Hm | rewrite Hg; reflexivity].
Qed.

Lemma calculate_soc_pure voltage c w1 w2 :
  monitor w1 = monitor w2 ->
  fst (calculate_soc voltage c w1) = fst (calculate_soc voltage c w2)
  /\ snd (calculate_soc voltage c w1) = w1.
Proof.
  intros Hm.
  destruct (cell_types (monitor w2) !! c) as [specs|] eqn:Hc.
  - rewrite (calculate_soc_known _ c w2 specs Hc). rewrite <- Hm in Hc.
    rewrite (calculate_soc_known _ c w1 specs Hc). split; reflexivity.
  - rewrite (calculate_soc_unknown _ c w2 Hc). rewrite <- Hm in Hc.
    rewrite (calculate_soc_unknown _ c w1 Hc). split; reflexivity.
Qed.

Lemma get_cell_status_pure voltage c w1 w2 :
  monitor w1 = monitor w2 ->
  fst (get_cell_status voltage c w1) = fst (get_cell_status voltage c w2)
  /\ snd (get_cell_status voltage c w1) = w1.
Proof.
  intros Hm.
  destruct (cell_types (monitor w2) !! c) as [specs|] eqn:Hc.
  - rewrite (get_cell_status_known _ c w2 specs Hc). rewrite <- Hm in Hc.
    rewrite (get_cell_status_known _ c w1 specs Hc). split; reflexivity.
  - rewrite (get_cell_status_unknown _ c w2 Hc). rewrite <- Hm in Hc.
    rewrite (get_cell_status_unknown _ c w1 Hc). split; reflexivity.
Qed.

Lemma evaluable_monitor w1 w2 config :
  monitor w1 = monitor w2 -> evaluable w1 config = evaluable w2 config.
Proof.
  intros Hm. unfold evaluable.
  destruct (calculate_soc_pure (voltage config) (type config) w1 w2 Hm) as [-> _].
  reflexivity.
Qed.

Lemma readings_reached_monitor w1 w2 cfg :
  monitor w1 = monitor w2 -> readings_reached w1 cfg = readings_reached w2 cfg.
Proof.
  intros Hm. induction cfg as [|config rest IH]; [reflexivity|].
  cbn [readings_reached]. rewrite (evaluable_monitor w1 w2 config Hm), IH.
  reflexivity.
Qed.

(** The generator moves by one draw per reading reached. *)
Lemma process_cells_loop_reached cfg :
  forall i acc w,
    snd (process_cells_loop i cfg acc w) = draws (readings_reached w cfg) w.
Proof.
  induction cfg as [|config rest IH]; intros i acc w.
  - simpl. symmetry. apply draws_0.
  - rewrite process_cells_loop_step. cbn [readings_reached]. unfold evaluable.
    destruct (cell_types (monitor w) !! type config) as [specs|] eqn:Hc.
    + rewrite (calculate_soc_known _ _ w specs Hc).
      destruct (soc_raw specs (voltage config)) as [soc|e]; [|reflexivity].
      cbn [fst]. rewrite IH, draws_draws, Nat.add_1_r.
      rewrite (readings_reached_monitor (draws 1 w) w rest eq_refl). reflexivity.
    + rewrite (calculate_soc_unknown _ _ w Hc). reflexivity.
Qed.

Lemma drawn_temperatures_S g n :
  drawn_temperatures g (S n) =
    temperature_of (source g (cursor g)) :: drawn_temperatures (advance 1 g) n.
Proof.
  unfold drawn_temperatures. cbn [seq map Nat.add]. f_equal.
  rewrite <- seq_shift, map_map. apply map_ext. intros k.
  unfold advance; cbn [source cursor]. do 2 f_equal. lia.
Qed.

(** The temperatures of the records are computed from the values drawn, in
    order. *)
Lemma process_cells_loop_temperatures cfg :
  forall i acc w,
    res_map (map Temperature_C) (fst (process_cells_loop i cfg acc w))
    = res_map (fun _ => map Temperature_C acc
                        ++ drawn_temperatures (rng w) (length cfg))
        (fst (process_cells_loop i cfg acc w)).
Proof.
  induction cfg as [|config rest IH]; intros i acc w.
  - simpl. rewrite app_nil_r. reflexivity.
  - rewrite process_cells_loop_step.
    destruct (cell_types (monitor w) !! type config) as [specs|]; [|reflexivity].
    destruct (soc_raw specs (voltage config)) as [soc|e]; [|reflexivity].
    rewrite IH. cbn [length]. rewrite drawn_temperatures_S, map_app, <- app_assoc.
    reflexivity.
Qed.

(** C6, as the code has it: state of charge and status classification are
    pure, their result depends only on the table and their arguments and
    they leave the world as it is.  Batch evaluation is not: it takes each
    temperature from the shared random generator, the temperature of the
    [k]-th record being computed from the [k]-th value drawn.  Two batch
    evaluations over the same table and readings agree in every field but
    the temperature (power included), and agree entirely when they start
    from the same generator state.  A batch evaluation changes nothing but
    the generator, which advances by exactly one draw per reading reached:
    every reading, or those up to and including the first one on which it
    fails. *)
Theorem calculator_determinism w1 w2 w3 voltage c cfg :
  monitor w1 = monitor w2 ->
  monitor w1 = monitor w3 ->
  rng w1 = rng w3 ->
  (fst (calculate_soc voltage c w1) = fst (calculate_soc voltage c w2)
   /\ snd (calculate_soc voltage c w1) = w1)
  /\ (fst (get_cell_status voltage c w1) = fst (get_cell_status voltage c w2)
      /\ snd (get_cell_status voltage c w1) = w1)
  /\ res_map (map without_temperature) (fst (process_cells_data cfg w1))
     = res_map (map without_temperature) (fst (process_cells_data cfg w2))
  /\ fst (process_cells_data cfg w1) = fst (process_cells_data cfg w3)
  /\ res_map (map Temperature_C) (fst (process_cells_data cfg w1))
     = res_map (fun _ => drawn_temperatures (rng w1) (length cfg))
         (fst (process_cells_data cfg w1))
  /\ snd (process_cells_data cfg w1) = draws (readings_reached w1 cfg) w1.
Proof.
  intros Hm2 Hm3 Hg. split; [|split; [|split; [|split; [|split]]]].
  - apply calculate_soc_pure, Hm2.
  - apply get_cell_status_pure, Hm2.
  - apply process_cells_loop_temperature_only; [exact Hm2 | reflexivity].
  - apply process_cells_loop_deterministic; assumption.
  - apply (process_cells_loop_temperatures cfg 1 [] w1).
  - apply process_cells_loop_reached.
Qed.

Lemma calculator_determinism_witness :
  (fst (calculate_soc (F64.dec 33 1) "LFP" world0)
   = fst (calculate_soc (F64.dec 33 1) "LFP" (draws 3 world0))
   /\ snd (calculate_soc (F64.dec 33 1) "LFP" world0) = world0)
  /\ (fst (get_cell_status (F64.dec 33 1) "LFP" world0)
      = fst (get_cell_status (F64.dec 33 1) "LFP" (draws 3 world0))
      /\ snd (get_cell_status (F64.dec 33 1) "LFP" world0) = world0)
  /\ res_map (map without_temperature) (fst (process_cells_data default_config world0))
     = res_map (map without_temperature)
         (fst (process_cells_data default_config (draws 3 world0)))
  /\ fst (process_cells_data default_config world0)
     = fst (process_cells_data default_config (runtime [lfp_reading] true demo_rng))
  /\ res_map (map Temperature_C) (fst (process_cells_data default_config world0))
     = res_map (fun _ => drawn_temperatures (rng world0) (length default_config))
         (fst (process_cells_data default_config world0))
  /\ snd (process_cells_data default_config world0)
     = draws (readings_reached world0 default_config) world0.
Proof.
  apply (calculator_determinism world0 (draws 3 world0)
           (runtime [lfp_reading] true demo_rng) (F64.dec 33 1) "LFP"
           default_config); reflexivity.
Defined.

(** C6 as worded fails for batch evaluation: evaluating the same reading
    twice in a row, with the table and the session list untouched in
    between, reports 20.0 degrees the first time and 23.1 the second, and
    the first evaluation has changed the state of the random generator. *)
Lemma process_cells_data_twice_differs :
  monitor (snd (process_cells_data [lfp_reading] world0)) = monitor world0
  /\ cells_config (snd (process_cells_data [lfp_reading] world0)) = cells_config world0
  /\ res_map (map Temperature_C) (fst (process_cells_data [lfp_reading] world0))
     = Ok [F64.dec 200 1]
  /\ res_map (map Temperature_C)
       (fst (process_cells_data [lfp_reading]
               (snd (process_cells_data [lfp_reading] world0))))
     = Ok [F64.dec 231 1]
  /\ fst (process_cells_data [lfp_reading] world0)
     <> fst (process_cells_data [lfp_reading]
               (snd (process_cells_data [lfp_reading] world0)))
  /\ snd (process_cells_data [lfp_reading] world0) <> world0.
Proof.
  assert (Hw : snd (process_cells_data [lfp_reading] world0) = draws 1 world0).
  { destruct (process_cells_data_ok [lfp_reading] world0 eq_refl) as (out & Hrun & _).
    - repeat constructor.
    - rewrite Hrun. reflexivity. }
  rewrite Hw.
  assert (H1 : res_map (map Temperature_C) (fst (process_cells_data [lfp_reading] world0))
               = Ok [F64.dec 200 1]) by (vm_compute; reflexivity).
  assert (H2 : res_map (map Temperature_C)
                 (fst (process_cells_data [lfp_reading] (draws 1 world0)))
               = Ok [F64.dec 231 1]) by (vm_compute; reflexivity).
  split; [reflexivity|]. split; [reflexivity|]. split; [exact H1|]. split; [exact H2|].
  split.
  - intros Heq. rewrite Heq, H2 in H1. vm_compute in H1. discriminate H1.
  - intros Heq. apply (f_equal (fun w => cursor (rng w))) in Heq. discriminate Heq.
Qed.

(** C7: batch evaluation does not modify what it is given.  Whatever the
    readings and the table are, and whether the call returns or raises, the
    session's list of readings (hence every reading in it), the monitor with
    its profile table and the monitoring flag are the same after the call as
    before; this holds in particular for the call of the script, which
    passes the session's own list. *)
Theorem process_cells_data_leaves_input cfg w :
  cells_config (snd (process_cells_data cfg w)) = cells_config w
  /\ monitor (snd (process_cells_data cfg w)) = monitor w
  /\ monitoring_active (snd (process_cells_data cfg w)) = monitoring_active w
  /\ cells_config (snd (process_cells_data (cells_config w) w)) = cells_config w.
Proof.
  destruct (process_cells_loop_frame cfg 1 [] w) as (n & _ & Hn).
  destruct (process_cells_loop_frame (cells_config w) 1 [] w) as (n' & _ & Hn').
  unfold process_cells_data. rewrite Hn, Hn'. repeat split.
Qed.

End BatchEvaluation.

(** ** The profile table *)

Section Profiles.

Lemma generate_random_voltage_frame c w :
  monitor (snd (generate_random_voltage c w)) = monitor w.
Proof.
  unfold generate_random_voltage. run_M.
  destruct (cell_types (monitor w) !! c); reflexivity.
Qed.

Lemma monitoring_step_monitor i s :
  s_monitor (snd (monitoring_step i s)) = s_monitor s.
Proof.
  unfold monitoring_step. cbn [random_uniform].
  destruct (s_cells s !! i) as [entry|]; [|reflexivity].
  destruct (float_of_num (s_voltage entry)); [|reflexivity].
  destruct (float_of_num (s_current entry)); reflexivity.
Qed.

(** C9: each of the four profiles of the startup table has its minimum
    voltage below its nominal voltage and its nominal voltage below its
    maximum voltage; the table holds exactly the keys LFP, NMC, LCO and LTO;
    and no method of the monitor, nor a step of the monitoring tick, changes
    the monitor and its table. *)
Theorem profiles_ordered_and_constant :
  map_Forall
    (fun _ specs =>
       F64.ltb (minimum_voltage specs) (nominal_voltage specs) = true
       /\ F64.ltb (nominal_voltage specs) (maximum_voltage specs) = true)
    (cell_types BatteryCellMonitor_init)
  /\ dom (cell_types BatteryCellMonitor_init)
     = ({[ "LFP"; "NMC"; "LCO"; "LTO" ]} : gset string)
  /\ forall w voltage c cfg i s,
       monitor (snd (calculate_soc voltage c w)) = monitor w
       /\ monitor (snd (get_cell_status voltage c w)) = monitor w
       /\ monitor (snd (process_cells_data cfg w)) = monitor w
       /\ monitor (snd (generate_random_temperature w)) = monitor w
       /\ monitor (snd (generate_random_voltage c w)) = monitor w
       /\ monitor (snd (generate_random_current w)) = monitor w
       /\ s_monitor (snd (monitoring_step i s)) = s_monitor s.
Proof.
  split; [|split].
  - intros c specs Hc.
    assert (Hin : c ∈ chemistries) by (apply known_chemistry; eauto).
    destruct (chemistry_profile c Hin) as (specs' & Hspecs' & Hok).
    assert (specs' = specs) as -> by congruence.
    unfold profile_ok in Hok. rewrite !andb_true_iff in Hok.
    destruct Hok as [[[_ Hlo] Hhi] _]. split; assumption.
  - rewrite chemistries_dom. unfold chemistries. set_solver.
  - intros w voltage c cfg i s.
    destruct (calculate_soc_pure voltage c w w eq_refl) as [_ ->].
    destruct (get_cell_status_pure voltage c w w eq_refl) as [_ ->].
    destruct (process_cells_loop_frame cfg 1 [] w) as (n & _ & Hn).
    unfold process_cells_data. rewrite Hn.
    rewrite generate_random_voltage_frame. split_and!; try reflexivity.
    apply monitoring_step_monitor.
Qed.

End Profiles.

(** ** The monitoring tick *)

Section Tick.

Lemma between_finite lo hi x :
  F64.is_finite lo = true -> F64.is_finite hi = true ->
  F64.leb lo x = true -> F64.leb x hi = true -> F64.is_finite x = true.
Proof.
  destruct lo as [?|?| |? ? ?], hi as [?|?| |? ? ?], x as [?|[]| |? ? ?];
    try discriminate; reflexivity.
Qed.

(** On numbers, [max(0, x)] is the floor at 0 of the specification. *)
Lemma max_0_floor x :
  F64.is_nan x = false -> Py.max (PyInt 0) (PyFloat x) = floor_at_0 (PyFloat x).
Proof.
  intros Hx. destruct (compare_float_int_number x 0 Hx) as [c Hc].
  unfold Py.max, floor_at_0, Py.gt, Py.le. cbn [Py.compare]. rewrite Hc.
  destruct c; reflexivity.
Qed.

(** A float above the int 0 is a number with a clear sign bit. *)
Lemma gt_0_signed x :
  Py.gt (PyFloat x) (PyInt 0) = true -> F64.is_nan x = false /\ F64.signbit x = false.
Proof.
  unfold Py.gt. cbn [Py.compare].
  destruct x as [s|[]| |[] m e]; simpl; try discriminate; auto.
  destruct (0 <=? e) eqn:He; [|discriminate].
  apply Z.leb_le in He.
  pose proof (Z.pow_pos_nonneg 2 e ltac:(lia) He) as Hp.
  destruct (Z.compare_spec (Z.neg m * 2 ^ e) 0); try discriminate. lia.
Qed.

(** A number with a clear sign bit is not below the int 0. *)
Lemma signed_nonneg x : signed false x -> Py.le (PyInt 0) (PyFloat x) = true.
Proof.
  intros [Hnan Hs]. unfold Py.le. cbn [Py.compare].
  destruct x as [s|s| |s m e]; simpl in *; try discriminate; subst;
    try reflexivity.
  destruct (0 <=? e) eqn:He.
  - apply Z.leb_le in He.
    pose proof (Z.pow_pos_nonneg 2 e ltac:(lia) He) as Hp.
    destruct (Z.compare_spec (Z.pos m * 2 ^ e) 0); simpl; try reflexivity; lia.
  - reflexivity.
Qed.

(** What the tick stores is never negative. *)
Lemma stored_nonneg x :
  Py.le (PyInt 0) (Py.round_val (Py.max (PyInt 0) (PyFloat x)) 2) = true.
Proof.
  unfold Py.max. destruct (Py.gt (PyFloat x) (PyInt 0)) eqn:Hgt; [|reflexivity].
  apply gt_0_signed in Hgt as [Hnan Hs]. cbn [Py.round_val].
  apply signed_nonneg. rewrite <- Hs. apply round_signed; [exact Hnan | lia].
Qed.

(** C8, as the code has it: for every reading with finite voltage and
    current and every pair of draws within [[-0.05, 0.05]] and
    [[-0.1, 0.1]], one perturbation step stores as new voltage the sum of
    voltage and draw, floored at 0 and then rounded to two decimals, and as
    new current the sum of current and draw, floored at 0 and then rounded to
    two decimals; both stored values are at least 0. *)
Theorem perturb_floors_then_rounds config dv di :
  F64.is_finite (voltage config) = true ->
  F64.is_finite (current config) = true ->
  F64.leb (F64.dec (-5) 2) dv = true -> F64.leb dv (F64.dec 5 2) = true ->
  F64.leb (F64.dec (-1) 1) di = true -> F64.leb di (F64.dec 1 1) = true ->
  perturb config dv di =
    (Py.round_val (floor_at_0 (PyFloat (F64.add (voltage config) dv))) 2,
     Py.round_val (floor_at_0 (PyFloat (F64.add (current config) di))) 2)
  /\ Py.le (PyInt 0) (fst (perturb config dv di)) = true
  /\ Py.le (PyInt 0) (snd (perturb config dv di)) = true.
Proof.
  intros Hv Hc Hdv1 Hdv2 Hdi1 Hdi2.
  assert (Hdv : F64.is_finite dv = true)
    by (apply (between_finite (F64.dec (-5) 2) (F64.dec 5 2)); auto).
  assert (Hdi : F64.is_finite di = true)
    by (apply (between_finite (F64.dec (-1) 1) (F64.dec 1 1)); auto).
  unfold perturb. cbn [fst snd].
  rewrite <- !max_0_floor by (apply add_not_nan; assumption).
  split; [reflexivity|]. split; apply stored_nonneg.
Qed.

Lemma perturb_floors_then_rounds_witness :
  perturb lfp_reading (F64.dec (-3) 2) (F64.dec 7 2) =
    (Py.round_val (floor_at_0 (PyFloat (F64.add (voltage lfp_reading) (F64.dec (-3) 2)))) 2,
     Py.round_val (floor_at_0 (PyFloat (F64.add (current lfp_reading) (F64.dec 7 2)))) 2)
  /\ Py.le (PyInt 0) (fst (perturb lfp_reading (F64.dec (-3) 2) (F64.dec 7 2))) = true
  /\ Py.le (PyInt 0) (snd (perturb lfp_reading (F64.dec (-3) 2) (F64.dec 7 2))) = true.
Proof.
  apply (perturb_floors_then_rounds lfp_reading (F64.dec (-3) 2) (F64.dec 7 2));
    vm_compute; reflexivity.
Defined.

(** C8 as worded fails: for a cell at 3.2 V and 1.0 A and the draws 0.001
    and 0.004, both within their ranges, the floored sums are about 3.201
    and 1.004, but the step stores 3.2 and 1.0. *)
Lemma perturb_is_not_the_floored_sum :
  F64.leb (F64.dec (-5) 2) (F64.dec 1 3) = true
  /\ F64.leb (F64.dec 1 3) (F64.dec 5 2) = true
  /\ F64.leb (F64.dec (-1) 1) (F64.dec 4 3) = true
  /\ F64.leb (F64.dec 4 3) (F64.dec 1 1) = true
  /\ perturb {| type := "LFP"; voltage := F64.dec 32 1; current := F64.dec 10 1 |}
       (F64.dec 1 3) (F64.dec 4 3)
     = (PyFloat (F64.dec 32 1), PyFloat (F64.dec 10 1))
  /\ floor_at_0 (PyFloat (F64.add (F64.dec 32 1) (F64.dec 1 3)))
     = PyFloat (F64.add (F64.dec 32 1) (F64.dec 1 3))
  /\ Py.lt (PyFloat (F64.dec 32 1))
       (floor_at_0 (PyFloat (F64.add (F64.dec 32 1) (F64.dec 1 3)))) = true
  /\ floor_at_0 (PyFloat (F64.add (F64.dec 10 1) (F64.dec 4 3)))
     = PyFloat (F64.add (F64.dec 10 1) (F64.dec 4 3))
  /\ Py.lt (PyFloat (F64.dec 10 1))
       (floor_at_0 (PyFloat (F64.add (F64.dec 10 1) (F64.dec 4 3)))) = true.
Proof. repeat split; vm_compute; reflexivity. Qed.

End Tick.

(** ** Further properties of batch evaluation *)

Section BatchMore.

Implicit Types (w : World) (config : Reading) (cfg : list Reading).

(** X1: with the startup table, when the reading at position [k] is the
    first one with an unknown chemistry, batch evaluation raises the
    [KeyError] of that chemistry and returns no record; the random generator
    has then advanced [k + 1] times, because the temperature of the failing
    reading is drawn before its chemistry is looked up. *)
Theorem batch_failure_consumes_draws pre bad post w :
  monitor w = BatteryCellMonitor_init ->
  Forall known pre ->
  ~ known bad ->
  process_cells_data (pre ++ bad :: post) w =
    (Raise (KeyError (type bad)), draws (S (length pre)) w).
Proof.
  intros Hm Hpre Hbad. unfold process_cells_data.
  apply process_cells_loop_fail; assumption.
Qed.

Lemma batch_failure_consumes_draws_witness :
  process_cells_data (default_config ++ xyz_reading :: [lfp_reading]) world0 =
    (Raise (KeyError (type xyz_reading)), draws (S (length default_config)) world0).
Proof.
  apply (batch_failure_consumes_draws default_config xyz_reading [lfp_reading] world0).
  - reflexivity.
  - unfold default_config, known, chemistries; simpl. repeat constructor.
  - unfold known, chemistries; simpl.
    rewrite !elem_of_cons, elem_of_nil. intros [|[|[|[|[]]]]]; discriminate.
Defined.

(** X2: with the startup table and known chemistries, batch evaluation
    advances the random generator by exactly one draw per reading, and the
    temperature of the record at position [k] is [20 + 25 * u] rounded to one
    decimal, where [u] is the [k]-th value drawn. *)
Theorem batch_temperatures cfg w :
  monitor w = BatteryCellMonitor_init ->
  Forall known cfg ->
  exists out,
    process_cells_data cfg w = (Ok out, draws (length cfg) w)
    /\ forall k rec,
         out !! k = Some rec ->
         Temperature_C rec =
           Py.round (F64.add (F64.of_int 20)
                       (F64.mul (source (rng w) (k + cursor (rng w)))
                          (F64.of_int 25))) 1.
Proof.
  intros Hm Hall.
  destruct (process_cells_data_ok cfg w Hm Hall) as (out & Hrun & Hlen & Hout).
  exists out. split; [exact Hrun|]. intros k rec Hk.
  destruct (lookup_lt_is_Some_2 cfg k) as [config Hcfg].
  { rewrite <- Hlen. eapply lookup_lt_Some, Hk. }
  destruct (Hout k config Hcfg) as (specs & soc & _ & _ & Hrec).
  rewrite Hk in Hrec. injection Hrec as ->. reflexivity.
Qed.

Lemma batch_temperatures_witness :
  exists out,
    process_cells_data default_config world0
      = (Ok out, draws (length default_config) world0)
    /\ forall k rec,
         out !! k = Some rec ->
         Temperature_C rec =
           Py.round (F64.add (F64.of_int 20)
                       (F64.mul (source (rng world0) (k + cursor (rng world0)))
                          (F64.of_int 25))) 1.
Proof.
  apply (batch_temperatures default_config world0).
  - reflexivity.
  - unfold default_config, known, chemistries; simpl. repeat constructor.
Defined.

(** X3: every record of a batch evaluation agrees with the single-cell
    methods: its state of charge and its status are what [calculate_soc] and
    [get_cell_status] return for the record's own voltage and chemistry. *)
Theorem batch_agrees_with_methods cfg w :
  monitor w = BatteryCellMonitor_init ->
  Forall known cfg ->
  exists out,
    fst (process_cells_data cfg w) = Ok out
    /\ forall k rec,
         out !! k = Some rec ->
         calculate_soc (Voltage_V rec) (Type_ rec) w = (Ok (SOC_pct rec), w)
         /\ get_cell_status (Voltage_V rec) (Type_ rec) w = (Ok (Status rec), w).
Proof.
  intros Hm Hall.
  destruct (process_cells_data_ok cfg w Hm Hall) as (out & Hrun & Hlen & Hout).
  exists out. rewrite Hrun. split; [reflexivity|]. intros k rec Hk.
  destruct (lookup_lt_is_Some_2 cfg k) as [config Hcfg].
  { rewrite <- Hlen. eapply lookup_lt_Some, Hk. }
  destruct (Hout k config Hcfg) as (specs & soc & Hspecs & Hsoc & Hrec).
  rewrite Hk in Hrec. injection Hrec as ->. cbn [Voltage_V Type_ SOC_pct Status cell_data].
  rewrite <- Hm in Hspecs.
  rewrite (calculate_soc_known _ _ w specs Hspecs), Hsoc.
  rewrite (get_cell_status_known _ _ w specs Hspecs). split; reflexivity.
Qed.

Lemma batch_agrees_with_methods_witness :
  exists out,
    fst (process_cells_data default_config world0) = Ok out
    /\ forall k rec,
         out !! k = Some rec ->
         calculate_soc (Voltage_V rec) (Type_ rec) world0 = (Ok (SOC_pct rec), world0)
         /\ get_cell_status (Voltage_V rec) (Type_ rec) world0
            = (Ok (Status rec), world0).
Proof.
  apply (batch_agrees_with_methods default_config world0).
  - reflexivity.
  - unfold default_config, known, chemistries; simpl. repeat constructor.
Defined.

(** X4: the identifiers of the records of one batch evaluation are pairwise
    different. *)
Theorem batch_ids_distinct cfg w :
  monitor w = BatteryCellMonitor_init ->
  Forall known cfg ->
  exists out,
    fst (process_cells_data cfg w) = Ok out /\ NoDup (map Cell_ID out).
Proof.
  intros Hm Hall.
  destruct (process_cells_data_ok cfg w Hm Hall) as (out & Hrun & Hlen & Hout).
  exists out. rewrite Hrun. split; [reflexivity|].
  assert (Hid : forall k rec, out !! k = Some rec ->
                              Cell_ID rec = "Cell_" +:+ pretty (S k)).
  { intros k rec Hk.
    destruct (lookup_lt_is_Some_2 cfg k) as [config Hcfg].
    { rewrite <- Hlen. eapply lookup_lt_Some, Hk. }
    destruct (Hout k config Hcfg) as (specs & soc & _ & _ & Hrec).
    rewrite Hk in Hrec. injection Hrec as ->. reflexivity. }
  apply NoDup_alt. intros i j id Hi Hj.
  change (map Cell_ID out) with (Cell_ID <$> out) in Hi, Hj.
  rewrite list_lookup_fmap in Hi, Hj.
  destruct (out !! i) as [ri|] eqn:Hri; [|discriminate].
  destruct (out !! j) as [rj|] eqn:Hrj; [|discriminate].
  simpl in Hi, Hj. injection Hi as Hi. injection Hj as Hj.
  rewrite (Hid i ri Hri) in Hi. rewrite (Hid j rj Hrj) in Hj.
  rewrite <- Hj in Hi. apply (inj (String.app "Cell_")) in Hi.
  apply (inj pretty) in Hi. lia.
Qed.

Lemma batch_ids_distinct_witness :
  exists out,
    fst (process_cells_data default_config world0) = Ok out
    /\ NoDup (map Cell_ID out).
Proof.
  apply (batch_ids_distinct default_config world0).
  - reflexivity.
  - unfold default_config, known, chemistries; simpl. repeat constructor.
Defined.

(** The loop over a concatenation is the loop over the first part followed
    by the loop over the second, whatever the table is. *)
Lemma process_cells_loop_app xs :
  forall ys i acc w,
    process_cells_loop i (xs ++ ys) acc w =
      match process_cells_loop i xs acc w with
      | (Ok acc', w') => process_cells_loop (i + length xs) ys acc' w'
      | (Raise e, w') => (Raise e, w')
      end.
Proof.
  induction xs as [|config rest IH]; intros ys i acc w.
  - cbn [app length process_cells_loop]. rewrite Nat.add_0_r. reflexivity.
  - cbn [app length]. rewrite !process_cells_loop_step.
    destruct (cell_types (monitor w) !! type config) as [specs|]; [|reflexivity].
    destruct (soc_raw specs (voltage config)) as [soc|e]; [|reflexivity].
    rewrite IH. replace (S i + length rest)%nat with (i + S (length rest))%nat by lia.
    reflexivity.
Qed.

(** The loop only appends to its list, one record per reading. *)
Lemma process_cells_loop_extends cfg :
  forall i acc w out w',
    process_cells_loop i cfg acc w = (Ok out, w') ->
    exists ext, out = acc ++ ext /\ length ext = length cfg.
Proof.
  induction cfg as [|config rest IH]; intros i acc w out w' Hrun.
  - injection Hrun as <- _. exists []. rewrite app_nil_r. split; reflexivity.
  - rewrite process_cells_loop_step in Hrun.
    destruct (cell_types (monitor w) !! type config) as [specs|]; [|discriminate].
    destruct (soc_raw specs (voltage config)) as [soc|e]; [|discriminate].
    destruct (IH _ _ _ _ _ Hrun) as (ext & -> & Hlen).
    eexists (_ :: ext). rewrite <- app_assoc. split; [reflexivity|].
    simpl. rewrite Hlen. reflexivity.
Qed.

(** X5: readings appended to the input do not change what is computed for
    the readings before them.  Whatever the table is, evaluating [xs ++ ys]
    is evaluating [xs] and then continuing the loop over [ys] with the
    counter after [xs]: a failure within [xs] is the failure of the whole,
    and when the whole succeeds its first [length xs] records are exactly the
    records of [xs] alone. *)
Theorem batch_prefix xs ys w :
  process_cells_data (xs ++ ys) w =
    match process_cells_data xs w with
    | (Ok out, w') => process_cells_loop (S (length xs)) ys out w'
    | (Raise e, w') => (Raise e, w')
    end
  /\ forall out,
       fst (process_cells_data (xs ++ ys) w) = Ok out ->
       fst (process_cells_data xs w) = Ok (take (length xs) out).
Proof.
  assert (Happ : process_cells_data (xs ++ ys) w =
                 match process_cells_data xs w with
                 | (Ok out, w') => process_cells_loop (S (length xs)) ys out w'
                 | (Raise e, w') => (Raise e, w')
                 end).
  { unfold process_cells_data. apply process_cells_loop_app. }
  split; [exact Happ|]. intros out Hout. rewrite Happ in Hout.
  destruct (process_cells_data xs w) as [[out1|e] w1] eqn:Hxs; [|discriminate].
  destruct (process_cells_loop (S (length xs)) ys out1 w1) as [r w2] eqn:Hys.
  simpl in Hout. subst r.
  destruct (process_cells_loop_extends _ _ _ _ _ _ Hys) as (ext & -> & _).
  destruct (process_cells_loop_extends _ _ _ _ _ _ Hxs) as (ext1 & Hext1 & Hlen1).
  simpl in Hext1. subst out1. simpl. rewrite <- Hlen1, take_app_length. reflexivity.
Qed.

End BatchMore.

(** ** Further properties of the single-cell methods *)

Section MethodsMore.

Implicit Types (w : World) (c : string) (v : float).

(** X6: with the startup table, a voltage that is not finite is accepted
    without error.  NaN is reported as 100 percent and NORMAL, plus infinity
    as 100 percent and HIGH, minus infinity as 0 percent and LOW. *)
Theorem nonfinite_voltage c w :
  c ∈ chemistries ->
  monitor w = BatteryCellMonitor_init ->
  (calculate_soc S754_nan c w = (Ok (PyInt 100), w)
   /\ get_cell_status S754_nan c w = (Ok "NORMAL", w))
  /\ (calculate_soc (S754_infinity false) c w = (Ok (PyInt 100), w)
      /\ get_cell_status (S754_infinity false) c w = (Ok "HIGH", w))
  /\ (calculate_soc (S754_infinity true) c w = (Ok (PyInt 0), w)
      /\ get_cell_status (S754_infinity true) c w = (Ok "LOW", w)).
Proof.
  intros Hc Hm.
  assert (H : exists specs,
             cell_types BatteryCellMonitor_init !! c = Some specs
             /\ (forall v, v = S754_nan \/ v = S754_infinity false ->
                    match soc_raw specs v with
                    | Ok soc => Ok (soc_clamp (Py.round soc 1))
                    | Raise e => Raise e
                    end = Ok (PyInt 100))
             /\ match soc_raw specs (S754_infinity true) with
                | Ok soc => Ok (soc_clamp (Py.round soc 1))
                | Raise e => Raise e
                end = Ok (PyInt 0)
             /\ status_of specs S754_nan = "NORMAL"
             /\ status_of specs (S754_infinity false) = "HIGH"
             /\ status_of specs (S754_infinity true) = "LOW").
  { unfold chemistries in Hc.
    repeat (apply elem_of_cons in Hc as [->|Hc]);
      [eexists; split; [vm_compute; reflexivity|];
       split; [intros v [->| ->]; vm_compute; reflexivity|];
       repeat split; vm_compute; reflexivity ..|].
    apply elem_of_nil in Hc as []. }
  destruct H as (specs & Hspecs & H100 & H0 & Hn & Hh & Hl).
  rewrite <- Hm in Hspecs.
  rewrite !(calculate_soc_known _ c w specs Hspecs).
  rewrite !(get_cell_status_known _ c w specs Hspecs).
  rewrite (H100 S754_nan), (H100 (S754_infinity false)), H0, Hn, Hh, Hl by auto.
  repeat split.
Qed.

Lemma nonfinite_voltage_witness :
  (calculate_soc S754_nan "LTO" world0 = (Ok (PyInt 100), world0)
   /\ get_cell_status S754_nan "LTO" world0 = (Ok "NORMAL", world0))
  /\ (calculate_soc (S754_infinity false) "LTO" world0 = (Ok (PyInt 100), world0)
      /\ get_cell_status (S754_infinity false) "LTO" world0 = (Ok "HIGH", world0))
  /\ (calculate_soc (S754_infinity true) "LTO" world0 = (Ok (PyInt 0), world0)
      /\ get_cell_status (S754_infinity true) "LTO" world0 = (Ok "LOW", world0)).
Proof.
  apply (nonfinite_voltage "LTO" world0).
  - unfold chemistries. do 3 apply list_elem_of_further. apply list_elem_of_here.
  - reflexivity.
Defined.

(** X7: whatever the table is, [calculate_soc] can fail in two ways only:
    with the [KeyError] of the chemistry, exactly when the table has no entry
    for it, and with [ZeroDivisionError], exactly when the entry's maximum
    and minimum voltage have a zero difference.  [get_cell_status] fails
    exactly when the table has no entry, and neither call changes the
    world. *)
Theorem method_failures v c w :
  (fst (calculate_soc v c w) = Raise (KeyError c)
     <-> cell_types (monitor w) !! c = None)
  /\ (fst (calculate_soc v c w) = Raise ZeroDivisionError
      <-> exists specs,
            cell_types (monitor w) !! c = Some specs
            /\ F64.is_zero (F64.sub (maximum_voltage specs) (minimum_voltage specs))
               = true)
  /\ (forall e, fst (calculate_soc v c w) = Raise e ->
                e = KeyError c \/ e = ZeroDivisionError)
  /\ (forall e, fst (get_cell_status v c w) = Raise e
                <-> e = KeyError c /\ cell_types (monitor w) !! c = None)
  /\ snd (calculate_soc v c w) = w
  /\ snd (get_cell_status v c w) = w.
Proof.
  destruct (cell_types (monitor w) !! c) as [specs|] eqn:Hc.
  - rewrite (calculate_soc_known v c w specs Hc), (get_cell_status_known v c w specs Hc).
    unfold soc_raw, Py.truediv. cbn [fst snd].
    destruct (F64.is_zero (F64.sub (maximum_voltage specs) (minimum_voltage specs)))
      eqn:Hz; split_and!; try split; try reflexivity; intros;
      repeat match goal with
             | H : _ /\ _ |- _ => destruct H
             | H : exists _, _ |- _ => destruct H
             | H : Raise _ = Raise _ |- _ => injection H as <-
             end;
      try discriminate; try congruence; eauto.
  - rewrite (calculate_soc_unknown v c w Hc), (get_cell_status_unknown v c w Hc).
    cbn [fst snd]. split_and!; try split; try reflexivity; intros;
      repeat match goal with
             | H : _ /\ _ |- _ => destruct H
             | H : exists _, _ |- _ => destruct H
             | H : Raise _ = Raise _ |- _ => injection H as <-
             end;
      try discriminate; try congruence; eauto.
Qed.

End MethodsMore.

(** ** The random generators of the monitor *)

Section Generators.

Implicit Types (w : World) (c : string) (x y u : float).

Lemma add_nonneg x y : signed false x -> signed false y -> signed false (F64.add x y).
Proof.
  intros [Hx Sx] [Hy Sy].
  destruct x as [sx|sx| |sx mx ex], y as [sy|sy| |sy my ey];
    simpl in *; try discriminate; subst; try (split; reflexivity).
  unfold F64.add, SFadd. cbn [cond_Zopp].
  destruct (shl_align mx ex (Z.min ex ey)) as [m1 e1].
  destruct (shl_align my ey (Z.min ex ey)) as [m2 e2].
  cbn [fst Z.add binary_normalize]. apply binary_round_signed.
Qed.

Lemma mul_nonneg x y :
  nonneg_finite x = true -> nonneg_finite y = true -> signed false (F64.mul x y).
Proof.
  unfold nonneg_finite.
  destruct x as [[]|[]| |[] mx ex], y as [[]|[]| |[] my ey];
    simpl; try discriminate; intros _ _; try (split; reflexivity).
  unfold F64.mul, SFmul. apply (binary_round_aux_signed false). lia.
Qed.

Lemma nonneg_finite_signed x : nonneg_finite x = true -> signed false x.
Proof.
  unfold nonneg_finite. destruct x as [[]|[]| |[] m e]; simpl; try discriminate;
    intros _; split; reflexivity.
Qed.

(** Each startup profile has a non-negative minimum and a non-negative range. *)
Lemma chemistry_nonneg c :
  c ∈ chemistries ->
  exists specs,
    cell_types BatteryCellMonitor_init !! c = Some specs
    /\ nonneg_finite (minimum_voltage specs) = true
    /\ nonneg_finite (F64.sub (maximum_voltage specs) (minimum_voltage specs)) = true.
Proof.
  unfold chemistries. intros Hc.
  repeat (apply elem_of_cons in Hc as [->|Hc]);
    [eexists; repeat split; vm_compute; reflexivity ..|].
  apply elem_of_nil in Hc as [].
Qed.

(** X8: the random voltage, current and temperature are never NaN and never
    negative.  With the startup table, a known chemistry and a next value of
    the generator that is finite and not negative (as [random.random()]
    returns), each of the three generators succeeds, consumes exactly one
    draw, and returns a number that is at least 0. *)
Theorem generators_nonnegative c w :
  c ∈ chemistries ->
  monitor w = BatteryCellMonitor_init ->
  nonneg_finite (source (rng w) (cursor (rng w))) = true ->
  exists v i t,
    generate_random_voltage c w = (Ok v, draws 1 w)
    /\ generate_random_current w = (Ok i, draws 1 w)
    /\ generate_random_temperature w = (Ok t, draws 1 w)
    /\ Py.le (PyInt 0) (PyFloat v) = true
    /\ Py.le (PyInt 0) (PyFloat i) = true
    /\ Py.le (PyInt 0) (PyFloat t) = true.
Proof.
  intros Hc Hm Hu.
  destruct (chemistry_nonneg c Hc) as (specs & Hspecs & Hmin & Hrange).
  rewrite <- Hm in Hspecs.
  assert (Hround : forall x n, 0 <= n -> signed false x ->
                               Py.le (PyInt 0) (PyFloat (Py.round x n)) = true).
  { intros x n Hn [Hx Sx]. apply signed_nonneg. rewrite <- Sx.
    apply round_signed; assumption. }
  do 3 eexists. split; [|split; [|split; [|split; [|split]]]].
  - unfold generate_random_voltage. run_M. rewrite Hspecs. reflexivity.
  - reflexivity.
  - reflexivity.
  - apply Hround; [lia|]. apply add_nonneg.
    + apply nonneg_finite_signed, Hmin.
    + apply mul_nonneg; assumption.
  - apply Hround; [lia|]. apply add_nonneg.
    + split; reflexivity.
    + apply mul_nonneg; [assumption | reflexivity].
  - apply Hround; [lia|]. apply add_nonneg.
    + split; reflexivity.
    + apply mul_nonneg; [assumption | reflexivity].
Qed.

Lemma generators_nonnegative_witness :
  exists v i t,
    generate_random_voltage "LCO" (draws 5 world0) = (Ok v, draws 1 (draws 5 world0))
    /\ generate_random_current (draws 5 world0) = (Ok i, draws 1 (draws 5 world0))
    /\ generate_random_temperature (draws 5 world0) = (Ok t, draws 1 (draws 5 world0))
    /\ Py.le (PyInt 0) (PyFloat v) = true
    /\ Py.le (PyInt 0) (PyFloat i) = true
    /\ Py.le (PyInt 0) (PyFloat t) = true.
Proof.
  apply (generators_nonnegative "LCO" (draws 5 world0)).
  - unfold chemistries. do 2 apply list_elem_of_further. apply list_elem_of_here.
  - reflexivity.
  - vm_compute. reflexivity.
Defined.

End Generators.

(** ** The Randomize button *)

Section Randomize.

Implicit Types (w : World) (config : Reading).

Lemma advance_0 g : advance 0 g = g.
Proof. destruct g. reflexivity. Qed.

Lemma randomized_within_refl start w : randomized_within start 0 0 w w.
Proof. unfold randomized_within. rewrite advance_0. repeat split. Qed.

Lemma randomized_within_trans start n k d1 d2 w1 w2 w3 :
  randomized_within start n d1 w1 w2 ->
  randomized_within (start + n) k d2 w2 w3 ->
  randomized_within start (n + k) (d2 + d1) w1 w3.
Proof.
  intros (Hm & Ha & Hg & Hl & Ht & Ho) (Hm' & Ha' & Hg' & Hl' & Ht' & Ho').
  unfold randomized_within. split_and!.
  - congruence.
  - congruence.
  - rewrite Hg', Hg. unfold advance; simpl. f_equal. lia.
  - congruence.
  - intros j. rewrite Ht', Ht. reflexivity.
  - intros j Hj. rewrite Ho', Ho by lia. reflexivity.
Qed.

(** One iteration on an entry whose chemistry is in the table. *)
Lemma randomize_cell_ok i w config :
  cells_config w !! i = Some config ->
  is_Some (cell_types (monitor w) !! type config) ->
  exists w', randomize_cell i w = (None, w') /\ randomized_within i 1 2 w w'.
Proof.
  intros Hi [specs Hspecs]. unfold randomize_cell. rewrite Hi.
  unfold generate_random_voltage, generate_random_current. run_M.
  rewrite Hspecs. cbn [fst snd]. eexists. split; [reflexivity|].
  unfold randomized_within, set_current, set_voltage, advance; cbn.
  split_and!; try reflexivity.
  - rewrite !length_alter. reflexivity.
  - intros j. destruct (decide (i = j)) as [<-|Hne].
    + rewrite !list_lookup_alter_eq, Hi. reflexivity.
    + rewrite !list_lookup_alter_ne by exact Hne. reflexivity.
  - intros j Hj. rewrite !list_lookup_alter_ne by lia. reflexivity.
Qed.

(** A run of iterations over entries that exist and whose chemistries are
    in the table goes through. *)
Lemma for_range_randomize_ok n :
  forall start w,
    (start + n <= length (cells_config w))%nat ->
    (forall j config, (start <= j < start + n)%nat ->
                      cells_config w !! j = Some config ->
                      is_Some (cell_types (monitor w) !! type config)) ->
    exists w',
      for_range n start randomize_cell w = (None, w')
      /\ randomized_within start n (2 * n) w w'.
Proof.
  induction n as [|n IH]; intros start w Hlen Hknown.
  - exists w. split; [reflexivity | apply randomized_within_refl].
  - destruct (lookup_lt_is_Some_2 (cells_config w) start ltac:(lia)) as [config Hc].
    destruct (randomize_cell_ok start w config Hc) as (w1 & Hrun1 & Hinv1).
    { apply (Hknown start); [lia | exact Hc]. }
    pose proof Hinv1 as (Hm1 & _ & _ & Hl1 & _ & Ho1).
    destruct (IH (S start) w1) as (w2 & Hrun2 & Hinv2).
    { rewrite Hl1. lia. }
    { intros j config' Hj Hj'. rewrite Hm1. apply (Hknown j); [lia|].
      rewrite <- Ho1 by lia. exact Hj'. }
    exists w2. cbn [for_range]. rewrite Hrun1. split; [exact Hrun2|].
    replace (2 * S n)%nat with (2 * n + 2)%nat by lia.
    change (S n) with (1 + n)%nat.
    apply (randomized_within_trans start 1 n 2 (2 * n) w w1 w2); [exact Hinv1|].
    replace (start + 1)%nat with (S start) by lia. exact Hinv2.
Qed.

(** X9: Randomize keeps the cells.  When the session holds at least eight
    entries and the chemistries of the first eight are in the table, the loop
    runs through: the list keeps its length, every entry keeps its chemistry,
    entries from position 8 on are untouched, the monitor and the monitoring
    flag are unchanged, and the generator has advanced by 16 draws. *)
Theorem randomize_keeps_cells w :
  (8 <= length (cells_config w))%nat ->
  (forall j config, (j < 8)%nat ->
                    cells_config w !! j = Some config ->
                    is_Some (cell_types (monitor w) !! type config)) ->
  exists w',
    randomize w = (None, w')
    /\ monitor w' = monitor w
    /\ monitoring_active w' = monitoring_active w
    /\ rng w' = advance 16 (rng w)
    /\ length (cells_config w') = length (cells_config w)
    /\ map type (cells_config w') = map type (cells_config w)
    /\ drop 8 (cells_config w') = drop 8 (cells_config w).
Proof.
  intros Hlen Hknown.
  destruct (for_range_randomize_ok 8 0 w) as (w' & Hrun & Hm & Ha & Hg & Hl & Ht & Ho).
  { simpl. exact Hlen. }
  { intros j config Hj. apply Hknown. lia. }
  exists w'. split_and!; try assumption.
  - apply list_eq. intros j.
    change (map type ?l) with (type <$> l). rewrite !list_lookup_fmap. apply Ht.
  - apply list_eq. intros j. rewrite !lookup_drop. apply Ho. lia.
Qed.

Lemma randomize_keeps_cells_witness :
  exists w',
    randomize world0 = (None, w')
    /\ monitor w' = monitor world0
    /\ monitoring_active w' = monitoring_active world0
    /\ rng w' = advance 16 (rng world0)
    /\ length (cells_config w') = length (cells_config world0)
    /\ map type (cells_config w') = map type (cells_config world0)
    /\ drop 8 (cells_config w') = drop 8 (cells_config world0).
Proof.
  apply (randomize_keeps_cells world0).
  - simpl. lia.
  - intros j config Hj Hc.
    assert (Hty : type config = "LFP").
    { change (cells_config world0) with default_config in Hc.
      unfold default_config in Hc. apply lookup_replicate in Hc as [-> _].
      reflexivity. }
    rewrite Hty. vm_compute. eauto.
Defined.






End Randomize.

(** ** The status table and the alerts *)

Section Presentation.

Implicit Types (w : World) (cell : CellData) (rows : list CellData).

Lemma status_of_cases specs v :
  status_of specs v = "LOW" \/ status_of specs v = "HIGH"
  \/ status_of specs v = "NORMAL".
Proof.
  unfold status_of. destruct (F64.leb _ _); [auto|].
  destruct (F64.geb _ _); auto.
Qed.

(** X12: the style of a status cell tells the status.  For every status
    that [get_cell_status] returns with the startup table, [style_status]
    gives the LOW style exactly for LOW, the HIGH style exactly for HIGH and
    the third style exactly for NORMAL, the three styles being different; any
    value other than LOW and HIGH is styled like NORMAL. *)
Theorem style_identifies_status c voltage w :
  c ∈ chemistries ->
  monitor w = BatteryCellMonitor_init ->
  exists status,
    get_cell_status voltage c w = (Ok status, w)
    /\ (style_status status = "background-color: #f8d7da; color: #721c24"
        <-> status = "LOW")
    /\ (style_status status = "background-color: #d1ecf1; color: #0c5460"
        <-> status = "HIGH")
    /\ (style_status status = "background-color: #d4edda; color: #155724"
        <-> status = "NORMAL")
    /\ (forall val, val <> "LOW" -> val <> "HIGH" ->
                    style_status val = style_status "NORMAL").
Proof.
  intros Hc Hm.
  destruct (chemistry_profile c Hc) as (specs & Hspecs & _).
  rewrite <- Hm in Hspecs.
  exists (status_of specs voltage).
  split; [apply get_cell_status_known, Hspecs|].
  split_and!.
  - destruct (status_of_cases specs voltage) as [->|[->| ->]];
      split; intros H; try reflexivity; discriminate H.
  - destruct (status_of_cases specs voltage) as [->|[->| ->]];
      split; intros H; try reflexivity; discriminate H.
  - destruct (status_of_cases specs voltage) as [->|[->| ->]];
      split; intros H; try reflexivity; discriminate H.
  - intros val Hl Hh. unfold style_status.
    apply String.eqb_neq in Hl, Hh. rewrite Hl, Hh. reflexivity.
Qed.

Lemma style_identifies_status_witness :
  exists status,
    get_cell_status (F64.dec 41 1) "LCO" world0 = (Ok status, world0)
    /\ (style_status status = "background-color: #f8d7da; color: #721c24"
        <-> status = "LOW")
    /\ (style_status status = "background-color: #d1ecf1; color: #0c5460"
        <-> status = "HIGH")
    /\ (style_status status = "background-color: #d4edda; color: #155724"
        <-> status = "NORMAL")
    /\ (forall val, val <> "LOW" -> val <> "HIGH" ->
                    style_status val = style_status "NORMAL").
Proof.
  apply (style_identifies_status "LCO" (F64.dec 41 1) world0).
  - unfold chemistries. do 2 apply list_elem_of_further. apply list_elem_of_here.
  - reflexivity.
Defined.

Section Alerts.

Variables (str_float : float -> string) (str_val : pyval -> string).

(** One pass of the loop body appends the alerts of the row. *)
Lemma alerts_loop_cons cell rest alerts :
  alerts_loop str_float str_val (cell :: rest) alerts =
    alerts_loop str_float str_val rest
      (alerts ++ cell_alerts str_float str_val cell).
Proof.
  unfold cell_alerts. cbn [alerts_loop].
  destruct (String.eqb (Status cell) "LOW");
    [|destruct (String.eqb (Status cell) "HIGH")];
    destruct (Py.gt _ _); destruct (Py.lt _ _);
    cbn [app]; rewrite <- ?app_assoc, ?app_nil_r; reflexivity.
Qed.

Lemma alerts_loop_concat rows :
  forall alerts,
    alerts_loop str_float str_val rows alerts =
      alerts ++ concat (map (cell_alerts str_float str_val) rows).
Proof.
  induction rows as [|cell rest IH]; intros alerts.
  - simpl. rewrite app_nil_r. reflexivity.
  - rewrite alerts_loop_cons, IH. cbn [map concat].
    rewrite app_assoc. reflexivity.
Qed.

Lemma cell_alerts_nil cell :
  cell_alerts str_float str_val cell = [] <-> quiet cell.
Proof.
  unfold cell_alerts, quiet. cbn [alerts_loop].
  destruct (String.eqb (Status cell) "LOW") eqn:Hl.
  { apply String.eqb_eq in Hl.
    destruct (Py.gt _ _); destruct (Py.lt _ _); cbn [app];
      (split; [discriminate | intros (H1 & _); congruence]). }
  apply String.eqb_neq in Hl.
  destruct (String.eqb (Status cell) "HIGH") eqn:Hh.
  { apply String.eqb_eq in Hh.
    destruct (Py.gt _ _); destruct (Py.lt _ _); cbn [app];
      (split; [discriminate | intros (_ & H2 & _); congruence]). }
  apply String.eqb_neq in Hh.
  destruct (Py.gt _ _); destruct (Py.lt _ _); cbn [app];
    (split; [try discriminate | intros (_ & _ & H3 & H4); congruence]).
  intros _. repeat split; assumption.
Qed.

Lemma cell_alerts_length cell :
  (length (cell_alerts str_float str_val cell) <= 3)%nat.
Proof.
  unfold cell_alerts. cbn [alerts_loop].
  destruct (String.eqb (Status cell) "LOW");
    [|destruct (String.eqb (Status cell) "HIGH")];
    destruct (Py.gt _ _); destruct (Py.lt _ _); simpl; lia.
Qed.

Lemma system_alerts_concat rows :
  system_alerts str_float str_val rows
    = concat (map (cell_alerts str_float str_val) rows).
Proof. unfold system_alerts. rewrite alerts_loop_concat. reflexivity. Qed.

Lemma all_clear_quiet rows :
  all_clear str_float str_val rows = true <-> Forall quiet rows.
Proof.
  unfold all_clear. rewrite system_alerts_concat.
  induction rows as [|cell rest IH].
  - simpl. split; [constructor | reflexivity].
  - cbn [map concat]. rewrite Forall_cons, <- IH, <- cell_alerts_nil.
    destruct (cell_alerts str_float str_val cell) as [|a l]; cbn [app].
    + destruct (concat _); split; auto; intros [_ H]; exact H.
    + split; [discriminate | intros [H _]; discriminate H].
Qed.

(** X13: the alert list is the concatenation, in row order, of the alerts of
    each row; a row contributes at most three alerts (one for its status, one
    for a temperature above 40, one for a state of charge below 20); and the
    all-clear message is shown exactly when every row is quiet: status
    neither LOW nor HIGH, temperature not above 40, state of charge not
    below 20.  This holds whatever text is printed for the numbers. *)
Theorem alerts_by_row rows :
  system_alerts str_float str_val rows
    = concat (map (cell_alerts str_float str_val) rows)
  /\ (length (system_alerts str_float str_val rows) <= 3 * length rows)%nat
  /\ (all_clear str_float str_val rows = true <-> Forall quiet rows).
Proof.
  split; [apply system_alerts_concat|]. split; [|apply all_clear_quiet].
  rewrite system_alerts_concat.
  induction rows as [|cell rest IH]; [simpl; lia|].
  cbn [map concat length]. rewrite length_app.
  pose proof (cell_alerts_length cell). lia.
Qed.

(** X14: a cell outside its band is never passed over.  With the startup
    table and known chemistries, if the all-clear message is shown after a
    batch evaluation, then every reading's voltage is strictly inside its
    band (above [min * 1.05] and below [max * 0.95]), and every record has
    status NORMAL, a temperature not above 40 and a state of charge not
    below 20. *)
Theorem all_clear_means_in_band cfg w :
  monitor w = BatteryCellMonitor_init ->
  Forall known cfg ->
  res_map (all_clear str_float str_val) (fst (process_cells_data cfg w)) = Ok true ->
  exists out,
    fst (process_cells_data cfg w) = Ok out
    /\ length out = length cfg
    /\ forall k config,
         cfg !! k = Some config ->
         exists specs rec,
           cell_types BatteryCellMonitor_init !! type config = Some specs
           /\ out !! k = Some rec
           /\ F64.leb (voltage config)
                (F64.mul (minimum_voltage specs) (F64.dec 105 2)) = false
           /\ F64.geb (voltage config)
                (F64.mul (maximum_voltage specs) (F64.dec 95 2)) = false
           /\ Status rec = "NORMAL"
           /\ Py.gt (PyFloat (Temperature_C rec)) (PyInt 40) = false
           /\ Py.lt (SOC_pct rec) (PyInt 20) = false.
Proof.
  intros Hm Hall Hclear.
  destruct (process_cells_data_ok cfg w Hm Hall) as (out & Hrun & Hlen & Hout).
  exists out. rewrite Hrun in Hclear |- *. cbn [fst res_map] in Hclear |- *.
  injection Hclear as Hclear.
  split; [reflexivity|]. split; [exact Hlen|]. intros k config Hk.
  apply all_clear_quiet in Hclear. rewrite Forall_lookup in Hclear.
  destruct (Hout k config Hk) as (specs & soc & Hspecs & _ & Hrec).
  destruct (Hclear k _ Hrec) as (Hl & Hh & Ht & Hs).
  exists specs. eexists. split; [exact Hspecs|]. split; [exact Hrec|].
  cbn [Status cell_data] in Hl, Hh. unfold status_of in Hl, Hh |- *.
  cbn [Status cell_data]. unfold status_of.
  destruct (F64.leb _ _); [congruence|].
  destruct (F64.geb _ _); [congruence|].
  repeat split; assumption.
Qed.

End Alerts.

Lemma all_clear_means_in_band_witness :
  exists out,
    fst (process_cells_data (take 7 default_config) world0) = Ok out
    /\ length out = length (take 7 default_config)
    /\ forall k config,
         take 7 default_config !! k = Some config ->
         exists specs rec,
           cell_types BatteryCellMonitor_init !! type config = Some specs
           /\ out !! k = Some rec
           /\ F64.leb (voltage config)
                (F64.mul (minimum_voltage specs) (F64.dec 105 2)) = false
           /\ F64.geb (voltage config)
                (F64.mul (maximum_voltage specs) (F64.dec 95 2)) = false
           /\ Status rec = "NORMAL"
           /\ Py.gt (PyFloat (Temperature_C rec)) (PyInt 40) = false
           /\ Py.lt (SOC_pct rec) (PyInt 20) = false.
Proof.
  apply (all_clear_means_in_band (fun _ => "") (fun _ => "")
           (take 7 default_config) world0).
  - reflexivity.
  - unfold default_config, known, chemistries; simpl. repeat constructor.
  - vm_compute. reflexivity.
Defined.

(** With all eight default readings the eighth temperature is above 40 and
    the all-clear message is not shown. *)
Example default_session_alerts :
  res_map (all_clear (fun _ => "") (fun _ => ""))
    (fst (process_cells_data default_config world0)) = Ok false.
Proof. vm_compute. reflexivity. Qed.

End Presentation.

(** ** The efficiency column *)

Section Efficiency.

Lemma mul_zero_l x y :
  F64.is_zero x = true -> F64.is_zero (F64.mul x y) = true \/ F64.mul x y = S754_nan.
Proof.
  destruct x as [sx|sx| |sx mx ex]; try discriminate; intros _.
  destruct y as [sy|sy| |sy my ey]; simpl; auto.
Qed.

Lemma efficiency_of_zero_product p :
  F64.is_zero p = true \/ p = S754_nan ->
  F64.mul (F64.div (Py.round p 2) p) (F64.of_int 100) = S754_nan.
Proof.
  intros [Hp| ->]; [|reflexivity].
  destruct p as [s|s| |s m e]; try discriminate. reflexivity.
Qed.

(** X15: the efficiency column is undefined for a cell at rest.  With the
    startup table and known chemistries, the efficiency computed for a
    reading whose voltage is zero or whose current is zero is NaN, whatever
    the other value is: the power and the product it is divided by are both
    zero. *)
Theorem efficiency_nan_at_zero cfg w k config :
  monitor w = BatteryCellMonitor_init ->
  Forall known cfg ->
  cfg !! k = Some config ->
  F64.is_zero (voltage config) = true \/ F64.is_zero (current config) = true ->
  exists out rec,
    fst (process_cells_data cfg w) = Ok out
    /\ out !! k = Some rec
    /\ efficiency rec = S754_nan.
Proof.
  intros Hm Hall Hk Hzero.
  destruct (process_cells_data_ok cfg w Hm Hall) as (out & Hrun & Hlen & Hout).
  destruct (Hout k config Hk) as (specs & soc & _ & _ & Hrec).
  exists out. eexists. rewrite Hrun. split; [reflexivity|]. split; [exact Hrec|].
  unfold efficiency. cbn [Power_W Voltage_V Current_A cell_data].
  apply efficiency_of_zero_product.
  destruct Hzero as [Hv|Hc].
  - apply mul_zero_l, Hv.
  - rewrite mul_comm. apply mul_zero_l, Hc.
Qed.

Lemma efficiency_nan_at_zero_witness :
  exists out rec,
    fst (process_cells_data
           [lfp_reading;
            {| type := "NMC"; voltage := F64.dec 0 1; current := F64.dec 15 1 |}]
           world0) = Ok out
    /\ out !! 1%nat = Some rec
    /\ efficiency rec = S754_nan.
Proof.
  apply (efficiency_nan_at_zero
           [lfp_reading;
            {| type := "NMC"; voltage := F64.dec 0 1; current := F64.dec 15 1 |}]
           world0 1
           {| type := "NMC"; voltage := F64.dec 0 1; current := F64.dec 15 1 |}).
  - reflexivity.
  - unfold known, chemistries; simpl. repeat constructor.
  - reflexivity.
  - left. vm_compute. reflexivity.
Defined.

End Efficiency.

(** ** One iteration of the monitoring tick on the session list *)

Section TickMore.

Implicit Types (s : Session) (entry : Stored).

(** X16: one iteration of the monitoring tick.  Both variations are drawn
    first, so the generator always advances by two draws.  On an index in
    range whose voltage and current can be used as floats, the iteration runs
    through: the entry keeps its chemistry and gets as voltage and current
    the values of [perturb] for the two variations (the sums floored at 0
    and rounded to two decimals), which are at least 0; the other entries,
    the length of the list, the monitor and the monitoring flag are
    unchanged.  On an index out of range it raises [IndexError] after the two
    draws and leaves the list as it is. *)
Theorem monitoring_step_updates_entry i s entry v c :
  s_cells s !! i = Some entry ->
  float_of_num (s_voltage entry) = Some v ->
  float_of_num (s_current entry) = Some c ->
  exists dv di stored_voltage stored_current s',
    monitoring_step i s = (None, s')
    /\ dv = F64.add (F64.dec (-5) 2)
              (F64.mul (F64.sub (F64.dec 5 2) (F64.dec (-5) 2))
                 (source (s_rng s) (cursor (s_rng s))))
    /\ di = F64.add (F64.dec (-1) 1)
              (F64.mul (F64.sub (F64.dec 1 1) (F64.dec (-1) 1))
                 (source (s_rng s) (S (cursor (s_rng s)))))
    /\ (stored_voltage, stored_current)
       = perturb {| type := s_type entry; voltage := v; current := c |} dv di
    /\ s_cells s' !! i
       = Some {| s_type := s_type entry; s_voltage := stored_voltage;
                 s_current := stored_current |}
    /\ (forall j, j <> i -> s_cells s' !! j = s_cells s !! j)
    /\ length (s_cells s') = length (s_cells s)
    /\ s_rng s' = advance 2 (s_rng s)
    /\ s_monitor s' = s_monitor s
    /\ s_active s' = s_active s
    /\ Py.le (PyInt 0) stored_voltage = true
    /\ Py.le (PyInt 0) stored_current = true
    /\ (forall j,
          s_cells s !! j = None ->
          monitoring_step j s =
            (Some IndexError,
             {| s_monitor := s_monitor s; s_cells := s_cells s;
                s_active := s_active s; s_rng := advance 2 (s_rng s) |})).
Proof.
  intros Hi Hv Hc.
  do 5 eexists. split_and!.
  - unfold monitoring_step. cbn [random_uniform source cursor].
    rewrite Hi, Hv, Hc. unfold perturb. reflexivity.
  - reflexivity.
  - reflexivity.
  - unfold perturb. reflexivity.
  - cbn [s_cells]. rewrite list_lookup_alter_eq, Hi. reflexivity.
  - intros j Hj. cbn [s_cells]. apply list_lookup_alter_ne. congruence.
  - cbn [s_cells]. apply length_alter.
  - reflexivity.
  - reflexivity.
  - reflexivity.
  - apply stored_nonneg.
  - apply stored_nonneg.
  - intros j Hj. unfold monitoring_step. cbn [random_uniform source cursor].
    rewrite Hj. reflexivity.
Qed.

Lemma monitoring_step_updates_entry_witness :
  exists dv di stored_voltage stored_current s',
    monitoring_step 7 (session_of world0) = (None, s')
    /\ dv = F64.add (F64.dec (-5) 2)
              (F64.mul (F64.sub (F64.dec 5 2) (F64.dec (-5) 2))
                 (source (s_rng (session_of world0))
                    (cursor (s_rng (session_of world0)))))
    /\ di = F64.add (F64.dec (-1) 1)
              (F64.mul (F64.sub (F64.dec 1 1) (F64.dec (-1) 1))
                 (source (s_rng (session_of world0))
                    (S (cursor (s_rng (session_of world0))))))
    /\ (stored_voltage, stored_current)
       = perturb {| type := "LFP"; voltage := F64.dec 32 1; current := F64.dec 10 1 |}
           dv di
    /\ s_cells s' !! 7%nat
       = Some {| s_type := "LFP"; s_voltage := stored_voltage;
                 s_current := stored_current |}
    /\ (forall j, j <> 7%nat -> s_cells s' !! j = s_cells (session_of world0) !! j)
    /\ length (s_cells s') = length (s_cells (session_of world0))
    /\ s_rng s' = advance 2 (s_rng (session_of world0))
    /\ s_monitor s' = s_monitor (session_of world0)
    /\ s_active s' = s_active (session_of world0)
    /\ Py.le (PyInt 0) stored_voltage = true
    /\ Py.le (PyInt 0) stored_current = true
    /\ (forall j,
          s_cells (session_of world0) !! j = None ->
          monitoring_step j (session_of world0) =
            (Some IndexError,
             {| s_monitor := s_monitor (session_of world0);
                s_cells := s_cells (session_of world0);
                s_active := s_active (session_of world0);
                s_rng := advance 2 (s_rng (session_of world0)) |})).
Proof.
  apply (monitoring_step_updates_entry 7 (session_of world0)
           {| s_type := "LFP"; s_voltage := PyFloat (F64.dec 32 1);
              s_current := PyFloat (F64.dec 10 1) |}
           (F64.dec 32 1) (F64.dec 10 1)); reflexivity.
Defined.

(** The values of the witness: 3.2 V and 1.0 A with the draws 0 and 1/8
    are stored as 3.15 V and 0.93 A (the second sum is about 0.925). *)
Example monitoring_step_example :
  exists s',
    monitoring_step 7 (session_of world0) = (None, s')
    /\ s_cells s' !! 7%nat
       = Some {| s_type := "LFP"; s_voltage := PyFloat (F64.dec 315 2);
                 s_current := PyFloat (F64.dec 93 2) |}
    /\ cursor (s_rng s') = 2%nat.
Proof. eexists. split; [reflexivity|]. split; vm_compute; reflexivity. Qed.

End TickMore.
